(** * testmozart: the scenario parser and the agent workflow

    A shallow embedding of [tools/test_design_tools.py] (the scenario
    parser) and [agents/coordinator.py] (state initialisation, the stage
    wiring, the refinement loop and the final reporter).

    Python [str] values are modelled by [string]; a character is a code
    point in the range U+0000..U+00FF.  On that alphabet the character
    classes of [re] and [str.strip] are the ones written out below. *)

From Stdlib Require Import Ascii String List Bool Arith Lia DecimalString.
From stdpp Require Import base gmap strings list.
Import ListNotations.

Open Scope string_scope.

(** ** Python strings *)

Module PyStr.

Definition LF : string := String "010"%char "".

(** [str.isspace] on one character: U+0009..U+000D, U+001C..U+0020,
    U+0085 and U+00A0. *)
Definition isspace (c : ascii) : bool :=
  let n := nat_of_ascii c in
  (((9 <=? n) && (n <=? 13)) || ((28 <=? n) && (n <=? 32))
   || (n =? 133) || (n =? 160))%nat.

(** [0-9], the only decimal digits below U+0100. *)
Definition isdigit (c : ascii) : bool :=
  let n := nat_of_ascii c in ((48 <=? n) && (n <=? 57))%nat.

(** Lower-casing of the ASCII letters, which is all that case-insensitive
    matching against an ASCII pattern needs. *)
Definition lower (c : ascii) : ascii :=
  let n := nat_of_ascii c in
  if ((65 <=? n) && (n <=? 90))%nat then ascii_of_nat (n + 32) else c.

Definition eqc (ignorecase : bool) (p c : ascii) : bool :=
  if ignorecase then Ascii.eqb (lower p) (lower c) else Ascii.eqb p c.

(** Python truthiness of a [str]. *)
Definition nonempty (s : string) : bool :=
  match s with "" => false | _ => true end.

Fixpoint lstrip (s : string) : string :=
  match s with
  | String c s' => if isspace c then lstrip s' else s
  | "" => ""
  end.

Fixpoint rstrip (s : string) : string :=
  match s with
  | "" => ""
  | String c s' =>
      let t := rstrip s' in
      if isspace c && negb (nonempty t) then "" else String c t
  end.

(** [s.strip()] *)
Definition strip (s : string) : string := rstrip (lstrip s).

(** [s.startswith(p)], giving what follows the prefix. *)
Fixpoint drop_prefix (p s : string) : option string :=
  match p, s with
  | "", _ => Some s
  | String a p', String b s' =>
      if Ascii.eqb a b then drop_prefix p' s' else None
  | String _ _, "" => None
  end.

Definition startswith (p s : string) : bool :=
  match drop_prefix p s with Some _ => true | None => false end.

(** [p in s] *)
Fixpoint contains (p s : string) : bool :=
  startswith p s
  || match s with String _ s' => contains p s' | "" => false end.

(** Splitting on the non-empty matches of [hit], which gives the length of
    the match that starts at the head of its argument.  [skip] counts the
    characters of the current match still to be passed over, [cur] is the
    piece under construction, reversed. *)
Fixpoint split_scan (hit : string -> option nat) (skip : nat)
    (cur : string) (s : string) : list string :=
  match s with
  | "" => [String.rev cur]
  | String c s' =>
      match skip with
      | S n => split_scan hit n cur s'
      | 0 =>
          match hit s with
          | Some (S n) => String.rev cur :: split_scan hit n "" s'
          | _ => split_scan hit 0 (String c cur) s'
          end
      end
  end.

(** [s.split(sep)] for a non-empty separator. *)
Definition split (sep s : string) : list string :=
  split_scan
    (fun t => if startswith sep t then Some (String.length sep) else None)
    0 "" s.

(** [sep.join(l)] *)
Fixpoint join (sep : string) (l : list string) : string :=
  match l with
  | [] => ""
  | [x] => x
  | x :: l' => x +:+ sep +:+ join sep l'
  end.

End PyStr.

(** ** The fragment of [re] used by the parser

    Patterns are kept as syntax trees and run by a backtracking matcher
    with the priorities of Python's engine: alternatives left to right,
    greedy repetition longest first, lazy repetition shortest first, and
    [search] at the leftmost position that matches. *)

Module Re.
Import PyStr.

Inductive cls : Type :=
| Dot     (* .  *)
| Space   (* \s *)
| Digit.  (* \d *)

Inductive re : Type :=
| Lit (p : string)                           (* literal characters *)
| Rep (c : cls) (least : nat) (greedy : bool) (* c*  c+  c*?  c+? *)
| Cat (r1 r2 : re)
| Alt (r1 r2 : re)                           (* r1|r2 *)
| Grp (r : re)                               (* capturing group 1 *)
| Eos.                                       (* $ *)

Record flags : Type := { IGNORECASE : bool; DOTALL : bool }.

Definition in_cls (fl : flags) (c : cls) (a : ascii) : bool :=
  match c with
  | Dot => DOTALL fl || negb (Ascii.eqb a "010")
  | Space => isspace a
  | Digit => isdigit a
  end.

Fixpoint eat (ic : bool) (p s : string) : option string :=
  match p, s with
  | "", _ => Some s
  | String a p', String b s' => if eqc ic a b then eat ic p' s' else None
  | String _ _, "" => None
  end.

(** [$] without MULTILINE: at the end, or just before a final newline. *)
Definition at_end (s : string) : bool :=
  match s with
  | "" => true
  | String c "" => Ascii.eqb c "010"
  | _ => false
  end.

Section Matcher.
Context {R : Type}.
Variable fl : flags.

(** Repetition of a character class, then the continuation [k]. *)
Fixpoint rep (ok : ascii -> bool) (greedy : bool) (least : nat)
    (s : string) (k : string -> option R) : option R :=
  let more (_ : unit) :=
    match s with
    | String a s' =>
        if ok a then rep ok greedy (pred least) s' k else None
    | "" => None
    end in
  let stop (_ : unit) :=
    match least with 0 => k s | S _ => None end in
  if greedy then
    match more tt with Some x => Some x | None => stop tt end
  else
    match stop tt with Some x => Some x | None => more tt end.

(** [run r s g k]: match [r] at the head of [s], with [g] the text
    captured so far by group 1, then continue with [k]. *)
Fixpoint run (r : re) (s : string) (g : option string)
    (k : string -> option string -> option R) : option R :=
  match r with
  | Lit p =>
      match eat (IGNORECASE fl) p s with
      | Some s' => k s' g
      | None => None
      end
  | Rep c least greedy =>
      rep (in_cls fl c) greedy least s (fun s' => k s' g)
  | Cat r1 r2 => run r1 s g (fun s' g' => run r2 s' g' k)
  | Alt r1 r2 =>
      match run r1 s g k with
      | Some x => Some x
      | None => run r2 s g k
      end
  | Grp r1 =>
      run r1 s g (fun s' _ =>
        k s' (Some (String.substring 0 (String.length s - String.length s') s)))
  | Eos => if at_end s then k s g else None
  end.
End Matcher.

(** A match object: where the match starts, how long it is, and
    [group(1)], which is [None] when the group took no part. *)
Record Match : Type := { start : nat; span : nat; group1 : option string }.

Definition match_at (fl : flags) (r : re) (s : string)
    : option (nat * option string) :=
  run fl r s None
    (fun s' g => Some (String.length s - String.length s', g)).

Fixpoint search_from (fl : flags) (r : re) (pos : nat) (s : string)
    : option Match :=
  match match_at fl r s with
  | Some (n, g) => Some {| start := pos; span := n; group1 := g |}
  | None =>
      match s with
      | String _ s' => search_from fl r (S pos) s'
      | "" => None
      end
  end.

(** [re.search(r, s, flags)] *)
Definition search (fl : flags) (r : re) (s : string) : option Match :=
  search_from fl r 0 s.

(** [re.split(r, s)] for a pattern without groups that matches no empty
    text. *)
Definition split (fl : flags) (r : re) (s : string) : list string :=
  split_scan (fun t => option_map fst (match_at fl r t)) 0 "" s.

Declare Scope re_scope.
Delimit Scope re_scope with re.
Bind Scope re_scope with re.
Infix "+>" := Cat (at level 41, right associativity) : re_scope.
Infix "|||" := Alt (at level 50, left associativity) : re_scope.

End Re.

(** ** Exceptions *)

Module PyExc.

(** The exceptions that the program meets, with their messages.
    [generate_test_scenarios] raises the first two.  [json.loads] raises
    [json.JSONDecodeError], whose message and position are left out, and
    two exceptions that are no [JSONDecodeError]: the [ValueError] of
    [int] for an integer literal with too many digits, and the
    [RecursionError] of the scanner for containers nested too deep.  In
    Python [JSONDecodeError] is a subclass of [ValueError]; no handler of
    the program catches [ValueError], so the two are kept apart here. *)
Inductive exn : Type :=
| ValueError (msg : string)
| AttributeError (msg : string)
| JSONDecodeError
| RecursionError (msg : string).

Inductive result (A : Type) : Type :=
| Return (a : A)
| Raise (e : exn).
Arguments Return {A} a.
Arguments Raise {A} e.

End PyExc.

(** ** tools/test_design_tools.py *)

Module TestDesignTools.
Import PyStr Re PyExc.

(** [class TestScenario(BaseModel)]: two required [str] fields. *)
Record TestScenario : Type :=
  { description : string; expected_outcome : string }.

(** The constructor call of lines 63-66.  Both arguments are already
    [str], so the validation of the model accepts them. *)
Definition validate (d o : string) : option TestScenario :=
  Some {| description := d; expected_outcome := o |}.

Definition no_flags : flags := {| IGNORECASE := false; DOTALL := false |}.
(** [re.DOTALL | re.IGNORECASE] *)
Definition dotall_ignorecase : flags :=
  {| IGNORECASE := true; DOTALL := true |}.

(** Patterns are quoted token by token, with blanks between the tokens;
    a blank that belongs to the pattern is written [\x20].

    Line 35:  [\*  \s*  Scenario\x20  \d+  :] *)
Definition scenario_marker : re :=
  (Lit "*" +> Rep Space 0 true +> Lit "Scenario " +> Rep Digit 1 true
   +> Lit ":")%re.

(** Line 46:
    [(?: Description | SCENARIO )  :  \s*  ( .*? )
     (?: \n  \s*  -  \s*  (?: Inputs | Expected\x20Outcome | EXPECTED )  :  |  $ )] *)
Definition desc_v2 : re :=
  ((Lit "Description" ||| Lit "SCENARIO") +> Lit ":" +> Rep Space 0 true
   +> Grp (Rep Dot 0 false)
   +> (Lit LF +> Rep Space 0 true +> Lit "-" +> Rep Space 0 true
       +> (Lit "Inputs" ||| Lit "Expected Outcome" ||| Lit "EXPECTED")
       +> Lit ":"
       ||| Eos))%re.

(** Line 47:  [Expected\x20Outcome  |  EXPECTED:  \s*  ( .* )].
    The alternation is the outermost operator, so the group belongs to
    its second branch only. *)
Definition outcome_v2 : re :=
  (Lit "Expected Outcome"
   ||| Lit "EXPECTED:" +> Rep Space 0 true +> Grp (Rep Dot 0 true))%re.

(** Line 54:  [SCENARIO:  \s*  ( .+? )  \s*  EXPECTED:] *)
Definition desc_v1 : re :=
  (Lit "SCENARIO:" +> Rep Space 0 true +> Grp (Rep Dot 1 false)
   +> Rep Space 0 true +> Lit "EXPECTED:")%re.

(** Line 55:  [EXPECTED:  \s*  ( .+ )] *)
Definition outcome_v1 : re :=
  (Lit "EXPECTED:" +> Rep Space 0 true +> Grp (Rep Dot 1 true))%re.

(** [m.group(1).strip()]: [group(1)] is [None] when the group took no
    part in the match, and [None] has no [strip]. *)
Definition group1_strip (m : Match) : result string :=
  match group1 m with
  | Some g => Return (strip g)
  | None => Raise (AttributeError "'NoneType' object has no attribute 'strip'")
  end.

(** Which splitter produced the blocks, and which patterns were searched
    in a block, in the order of the calls. *)
Inductive splitter : Type := Delimiter | Marker.
Inductive pattern : Type := DescV2 | OutcomeV2 | DescV1 | OutcomeV1.

(** Lines 32-35. *)
Definition scenario_blocks (natural_language_output : string)
    : list splitter * list string :=
  let scenario_blocks := PyStr.split "---" (strip natural_language_output) in
  if (length scenario_blocks <? 2)%nat then
    ([Delimiter; Marker],
     Re.split no_flags scenario_marker natural_language_output)
  else ([Delimiter], scenario_blocks).

(** Lines 50-51, and 57-58 alike: [description] from the first match,
    then [expected_outcome] from the second. *)
Definition captures (desc_match outcome_match : Match)
    : result (option string * option string) :=
  match group1_strip desc_match with
  | Raise e => Raise e
  | Return d =>
      match group1_strip outcome_match with
      | Raise e => Raise e
      | Return o => Return (Some d, Some o)
      end
  end.

(** Lines 41-58 for one block: the searches made, and either the pair
    [(description, expected_outcome)], each possibly [None], or the
    exception. *)
Definition extract (block : string)
    : list pattern * result (option string * option string) :=
  let desc_match_v2 := search dotall_ignorecase desc_v2 block in
  let outcome_match_v2 := search dotall_ignorecase outcome_v2 block in
  match desc_match_v2, outcome_match_v2 with
  | Some md, Some mo => ([DescV2; OutcomeV2], captures md mo)
  | _, _ =>
      let desc_match_v1 := search dotall_ignorecase desc_v1 block in
      let outcome_match_v1 := search dotall_ignorecase outcome_v1 block in
      ([DescV2; OutcomeV2; DescV1; OutcomeV1],
       match desc_match_v1, outcome_match_v1 with
       | Some md, Some mo => captures md mo
       | _, _ => Return (None, None)
       end)
  end.

(** The [for] loop of lines 37-71, with [scenarios] the list built so
    far. *)
Fixpoint each_block (blocks : list string) (scenarios : list TestScenario)
    : result (list TestScenario) :=
  match blocks with
  | [] => Return scenarios
  | block :: rest =>
      if negb (nonempty (strip block)) then each_block rest scenarios
      else
        match snd (extract block) with
        | Raise e => Raise e
        | Return (Some d, Some o) =>
            if nonempty d && nonempty o then
              match validate d o with
              | Some scenario_obj =>
                  each_block rest (scenarios ++ [scenario_obj])
              | None => each_block rest scenarios
              end
            else each_block rest scenarios
        | Return _ => each_block rest scenarios
        end
  end.

Definition generate_test_scenarios (natural_language_output : string)
    : result (list TestScenario) :=
  match each_block (snd (scenario_blocks natural_language_output)) [] with
  | Raise e => Raise e
  | Return [] =>
      Raise (ValueError "Could not parse any valid scenarios from the provided text.")
  | Return scenarios => Return scenarios
  end.

End TestDesignTools.

(** ** Python values and [json.loads] *)

Module Json.
Import PyStr PyExc.

(** The values that [json.loads] builds and that the session state
    holds.  A number keeps its lexeme; a [dict] keeps its keys in
    insertion order. *)
#[warnings="-register-all"] Inductive Value : Type :=
| VNone
| VBool (b : bool)
| VNum (lexeme : string)
| VStr (s : string)
| VList (l : list Value)
| VDict (d : list (string * Value)).

(** [d.get(k)] *)
Fixpoint dict_get (k : string) (d : list (string * Value)) : option Value :=
  match d with
  | [] => None
  | (k', v) :: d' => if String.eqb k k' then Some v else dict_get k d'
  end.

(** [k in d] *)
Definition dict_mem (k : string) (d : list (string * Value)) : bool :=
  match dict_get k d with Some _ => true | None => false end.

(** [d[k] = v] *)
Fixpoint dict_set (k : string) (v : Value) (d : list (string * Value))
    : list (string * Value) :=
  match d with
  | [] => [(k, v)]
  | (k', v') :: d' =>
      if String.eqb k k' then (k, v) :: d' else (k', v') :: dict_set k v d'
  end.

Definition quote : ascii := "034"%char.
Definition backslash : ascii := "092"%char.

Definition is_ws (c : ascii) : bool :=
  Ascii.eqb c " " || Ascii.eqb c "009" || Ascii.eqb c "010"
  || Ascii.eqb c "013".

Fixpoint skip_ws (s : string) : string :=
  match s with
  | String c s' => if is_ws c then skip_ws s' else s
  | "" => ""
  end.

(** The longest prefix of decimal digits, and what follows it. *)
Fixpoint digits (s : string) : string * string :=
  match s with
  | String c s' =>
      if isdigit c then let (ds, r) := digits s' in (String c ds, r)
      else ("", s)
  | "" => ("", "")
  end.

Definition hex (c : ascii) : option nat :=
  let n := nat_of_ascii c in
  if ((48 <=? n) && (n <=? 57))%nat then Some (n - 48)
  else if ((65 <=? n) && (n <=? 70))%nat then Some (n - 55)
  else if ((97 <=? n) && (n <=? 102))%nat then Some (n - 87)
  else None.

(** The character denoted by a one-letter escape. *)
Definition escape (c : ascii) : option ascii :=
  if Ascii.eqb c quote then Some quote
  else if Ascii.eqb c backslash then Some backslash
  else if Ascii.eqb c "/" then Some "/"%char
  else if Ascii.eqb c "b" then Some "008"%char
  else if Ascii.eqb c "f" then Some "012"%char
  else if Ascii.eqb c "n" then Some "010"%char
  else if Ascii.eqb c "r" then Some "013"%char
  else if Ascii.eqb c "t" then Some "009"%char
  else None.

(** The body of a string literal, after its opening quote: the decoded
    text and what follows the closing quote.  Control characters are
    refused (strict mode).  An escape [\uXXXX] above U+00FF denotes a
    character outside the alphabet of this development and is refused
    too, where Python accepts it. *)
Fixpoint scanstring (s : string) : option (string * string) :=
  match s with
  | "" => None
  | String c s1 =>
      if Ascii.eqb c quote then Some ("", s1)
      else if Ascii.eqb c backslash then
        match s1 with
        | String "u" (String h1 (String h2 (String h3 (String h4 s5)))) =>
            match hex h1, hex h2, hex h3, hex h4, scanstring s5 with
            | Some 0, Some 0, Some a, Some b, Some (t, r) =>
                Some (String (ascii_of_nat (16 * a + b)) t, r)
            | _, _, _, _, _ => None
            end
        | String e s2 =>
            match escape e, scanstring s2 with
            | Some c', Some (t, r) => Some (String c' t, r)
            | _, _ => None
            end
        | "" => None
        end
      else if (nat_of_ascii c <? 32)%nat then None
      else
        match scanstring s1 with
        | Some (t, r) => Some (String c t, r)
        | None => None
        end
  end.

(** A number at the head of [s]: an integer part, then a fraction and an
    exponent when they are complete. *)
Definition number (s : string) : option (string * string) :=
  let (sign, s1) :=
    match s with String "-" r => ("-", r) | _ => ("", s) end in
  match s1 with
  | String d r =>
      if isdigit d then
        let (int, r1) :=
          if Ascii.eqb d "0" then ("0", r)
          else let (ds, r') := digits r in (String d ds, r') in
        let (frac, r2) :=
          match r1 with
          | String "." r' =>
              let (ds, r'') := digits r' in
              if nonempty ds then ("." +:+ ds, r'') else ("", r1)
          | _ => ("", r1)
          end in
        let (exp, r3) :=
          match r2 with
          | String e r' =>
              if Ascii.eqb e "e" || Ascii.eqb e "E" then
                let (sg, r'') :=
                  match r' with
                  | String "+" t => ("+", t)
                  | String "-" t => ("-", t)
                  | _ => ("", r')
                  end in
                let (ds, r''') := digits r'' in
                if nonempty ds then (String e (sg +:+ ds), r''')
                else ("", r2)
              else ("", r2)
          | "" => ("", r2)
          end in
        Some (sign +:+ int +:+ frac +:+ exp, r3)
      else None
  | "" => None
  end.

(** The digits of an integer literal: the length of the lexeme without
    its sign, when it has neither fraction nor exponent. *)
Definition int_digits (lexeme : string) : option nat :=
  if contains "." lexeme || contains "e" lexeme || contains "E" lexeme
  then None
  else
    Some (match lexeme with
          | String "-" ds => String.length ds
          | _ => String.length lexeme
          end).

(** [str(n)] *)
Definition decimal (n : nat) : string :=
  NilEmpty.string_of_uint (Nat.to_uint n).

(** The limits of the interpreter that [json.loads] meets, as CPython
    3.11 applies them.  [int_max_str_digits] is the most digits that
    [int] converts ([sys.get_int_max_str_digits()], 4300 unless set
    otherwise, 0 for no limit).  The scanner spends one nested call on
    every container it opens, and raising [JSONDecodeError] from inside
    the scanner takes three: [recursion_spare] is the number of nested
    calls that the interpreter still allows when the scanner starts,
    beyond those three.  It depends on the recursion limit and on the
    depth of the call stack at the call. *)
Record Limits : Type :=
  { int_max_str_digits : nat; recursion_spare : nat }.

Section Scanner.
Variable sys : Limits.

(** [int(lexeme)] as far as it can fail. *)
Definition int_limit (lexeme : string) : option exn :=
  match int_digits lexeme with
  | Some n =>
      if ((0 <? int_max_str_digits sys) && (int_max_str_digits sys <? n))%nat
      then
        Some (ValueError
                ("Exceeds the limit (" +:+ decimal (int_max_str_digits sys)
                 +:+ " digits) for integer string conversion: value has "
                 +:+ decimal n
                 +:+ " digits; use sys.set_int_max_str_digits() to increase the limit"))
      else None
  | None => None
  end.

Definition too_deep (what : string) : exn :=
  RecursionError
    ("maximum recursion depth exceeded while decoding a JSON " +:+ what
     +:+ " from a unicode string").

Definition no_call : exn :=
  RecursionError
    "maximum recursion depth exceeded while calling a Python object".

(** The scanner reports a place where no value begins by
    [StopIteration], which [raw_decode] turns into [JSONDecodeError]
    outside the scanner. *)
Definition expecting_value {A : Type} : result A := Raise JSONDecodeError.

(** Every other fault of the text is raised as [JSONDecodeError] where it
    is found, by calls that need [room] for three. *)
Definition errmsg {A : Type} (room : nat) : result A :=
  match room with
  | 0 | 2 => Raise no_call
  | 1 => Raise (RecursionError "maximum recursion depth exceeded")
  | _ => Raise JSONDecodeError
  end.

Definition literal (word : string) (v : Value) (s : string)
    : result (Value * string) :=
  match drop_prefix word s with
  | Some r => Return (v, r)
  | None => expecting_value
  end.

(** [NaN], [Infinity] and [-Infinity] go through [parse_constant], one
    call more. *)
Definition constant (room : nat) (word : string) (s : string)
    : result (Value * string) :=
  match drop_prefix word s with
  | Some r =>
      match room with
      | 0 => Raise no_call
      | _ => Return (VNum word, r)
      end
  | None => expecting_value
  end.

(** One value at the head of [s].  [fuel] bounds the calls of the three
    functions still to be made, of which there are two at most for each
    character of the text; [room] is the number of nested calls still
    allowed.  The text is
    read from left to right, and the first failure ends the reading. *)
Fixpoint value (fuel room : nat) (s : string) : result (Value * string) :=
  match fuel with
  | 0 => expecting_value
  | S fuel =>
      match s with
      | "" => expecting_value
      | String c s' =>
          if Ascii.eqb c quote then
            match scanstring s' with
            | Some (t, r) => Return (VStr t, r)
            | None => errmsg room
            end
          else if Ascii.eqb c "{" then
            match room with
            | 0 => Raise (too_deep "object")
            | S room =>
                match skip_ws s' with
                | String "}" r => Return (VDict [], r)
                | s1 => members fuel room s1 []
                end
            end
          else if Ascii.eqb c "[" then
            match room with
            | 0 => Raise (too_deep "array")
            | S room =>
                match skip_ws s' with
                | String "]" r => Return (VList [], r)
                | s1 => elements fuel room s1 []
                end
            end
          else if Ascii.eqb c "n" then literal "null" VNone s
          else if Ascii.eqb c "t" then literal "true" (VBool true) s
          else if Ascii.eqb c "f" then literal "false" (VBool false) s
          else
            match number s with
            | Some (lexeme, r) =>
                match int_limit lexeme with
                | Some e => Raise e
                | None => Return (VNum lexeme, r)
                end
            | None =>
                if Ascii.eqb c "N" then constant room "NaN" s
                else if Ascii.eqb c "I" then constant room "Infinity" s
                else if Ascii.eqb c "-" then constant room "-Infinity" s
                else expecting_value
            end
      end
  end
with members (fuel room : nat) (s : string) (acc : list (string * Value))
    : result (Value * string) :=
  match fuel with
  | 0 => expecting_value
  | S fuel =>
      match s with
      | String c s1 =>
          if Ascii.eqb c quote then
            match scanstring s1 with
            | Some (key, s2) =>
                match skip_ws s2 with
                | String ":" s3 =>
                    match value fuel room (skip_ws s3) with
                    | Return (v, s4) =>
                        let acc' := dict_set key v acc in
                        match skip_ws s4 with
                        | String "," s5 => members fuel room (skip_ws s5) acc'
                        | String "}" s5 => Return (VDict acc', s5)
                        | _ => errmsg room
                        end
                    | Raise e => Raise e
                    end
                | _ => errmsg room
                end
            | None => errmsg room
            end
          else errmsg room
      | "" => errmsg room
      end
  end
with elements (fuel room : nat) (s : string) (acc : list Value)
    : result (Value * string) :=
  match fuel with
  | 0 => expecting_value
  | S fuel =>
      match value fuel room s with
      | Return (v, s1) =>
          match skip_ws s1 with
          | String "," s2 => elements fuel room (skip_ws s2) (acc ++ [v])
          | String "]" s2 => Return (VList (acc ++ [v]), s2)
          | _ => errmsg room
          end
      | Raise e => Raise e
      end
  end.

(** [json.loads(s)] *)
Definition loads (s : string) : result Value :=
  match
    value (S (String.length s + String.length s)) (3 + recursion_spare sys)
      (skip_ws s)
  with
  | Return (v, r) =>
      if nonempty (skip_ws r) then Raise JSONDecodeError else Return v
  | Raise e => Raise e
  end.
End Scanner.

End Json.

(** ** agents/coordinator.py *)

Module Coordinator.
Import PyStr PyExc Json.

(** *** State initialisation (lines 24-62)

    The session state is a dictionary from key names to values; an
    assignment [state[k] = v] is an insertion. *)

(** [types.Part] and [types.Content]: the text of a part and the parts of
    a content are optional. *)
Record Part : Type := { text : option string }.
Record Content : Type := { parts : option (list Part) }.

Record CallbackContext : Type :=
  { user_content : option Content; state : gmap string Value }.

(** The guard of line 32, [user_content and user_content.parts and
    user_content.parts[0].text], with the text it lets through: there is
    a content, its list of parts is not empty, and the text of the first
    part is a non-empty string. *)
Definition guarded_text (ctx : CallbackContext) : option string :=
  match user_content ctx with
  | Some content =>
      match parts content with
      | Some (part :: _) =>
          match text part with
          | Some t => if nonempty t then Some t else None
          | None => None
          end
      | _ => None
      end
  | None => None
  end.

Section Initialization.
(** [json.loads] *)
Variable json_loads : string -> result Value.

(** Lines 38-49: the state after the attempt to read the text as the
    structured request, with [is_json_input]; or the exception that
    leaves the [try], since line 47 catches [json.JSONDecodeError] and
    nothing else. *)
Definition from_json (raw_text : string) (st : gmap string Value)
    : result (gmap string Value * bool) :=
  match json_loads raw_text with
  | Return (VDict initial_data) =>
      if dict_mem "source_code" initial_data then
        Return
          (<["language" :=
               default (VStr "python") (dict_get "language" initial_data)]>
             (<["source_code" :=
                  default VNone (dict_get "source_code" initial_data)]> st),
           true)
      else Return (st, false)
  | Return _ => Return (st, false)
  | Raise JSONDecodeError => Return (st, false)
  | Raise e => Raise e
  end.

(** The state when the callback ends, and the exception that ends it, if
    one does.  An exception can only come from line 41, which is before
    every assignment. *)
Definition initialize_state (ctx : CallbackContext)
    : gmap string Value * option exn :=
  match guarded_text ctx with
  | None =>
      (<["initialization_error" := VStr "No input content."]> (state ctx),
       None)
  | Some raw_text =>
      match from_json raw_text (state ctx) with
      | Raise e => (state ctx, Some e)
      | Return (st, is_json_input) =>
          let st :=
            if negb is_json_input then
              <["language" := VStr "python"]>
                (<["source_code" := VStr raw_text]> st)
            else st in
          (<["generated_test_code" := VStr ""]>
             (<["test_scenarios" := VList []]>
                (<["static_analysis_report" := VDict []]>
                   (<["test_results" :=
                        VDict [("status", VStr "NOT_RUN")]]> st))),
           None)
      end
  end.
End Initialization.

(** The four keys of lines 58-61, each with the value given there. *)
Definition defaults_seeded (st : gmap string Value) : Prop :=
  st !! "test_results" = Some (VDict [("status", VStr "NOT_RUN")]) /\
  st !! "static_analysis_report" = Some (VDict []) /\
  st !! "test_scenarios" = Some (VList []) /\
  st !! "generated_test_code" = Some (VStr "").

(** [test_results.status], when [test_results] is an object with a
    string under that key. *)
Definition status_of (test_results : Value) : option string :=
  match test_results with
  | VDict d =>
      match dict_get "status" d with
      | Some (VStr s) => Some s
      | _ => None
      end
  | _ => None
  end.

Definition status (st : gmap string Value) : option string :=
  match st !! "test_results" with
  | Some test_results => status_of test_results
  | None => None
  end.

Definition is_pass (st : gmap string Value) : bool :=
  match status st with Some s => String.eqb s "PASS" | None => false end.

Definition is_fail (st : gmap string Value) : bool :=
  match status st with Some s => String.eqb s "FAIL" | None => false end.

(** *** The refinement loop (lines 105-174) *)

Inductive Signal : Type := Continue | EarlyExit.

(** Modelled from the spec: [exit_loop] of tools/workflow_tools.py, a
    file that is not among the sources.  Section 4.4 has the Debugger
    call the termination signal when it observes a passing result, and
    section 9 makes it an explicit loop-control signal returned by the
    iteration body. *)
Definition exit_loop : Signal := EarlyExit.

(** What the Debugger does with its turn: it calls the tool, or it ends
    the turn with a text, which its [output_key] stores. *)
Inductive Turn : Type :=
| CallExitLoop
| FinalText (t : string).

Inductive StageName : Type := Runner | Debugger.

Inductive LoopState : Type :=
| RUNNING
| TERMINATED_EARLY
| TERMINATED_BY_LIMIT.

(** The loop as a machine: its state, the iterations begun so far, the
    session state, and the stages run, latest last. *)
Record Loop : Type :=
  { phase : LoopState;
    times_looped : nat;
    shared : gmap string Value;
    ran : list StageName }.

(** [max_iterations=3] (line 173) *)
Definition max_iterations : nat := 3.

Section Stages.
(** The answers of the language model, which the program does not
    determine: the result object that ends the Runner's turn, the test
    code the Debugger writes for a failed run, and the Debugger's turn
    when the status is neither of the two its instruction names.  The
    first argument is the number of the iteration. *)
Variable runner_reply : nat -> gmap string Value -> Value.
Variable debugger_fix : nat -> gmap string Value -> string.
Variable debugger_else : nat -> gmap string Value -> Turn.

(** Lines 124-125: the Runner's final output goes to [test_results]. *)
Definition test_runner_agent (i : nat) (st : gmap string Value)
    : gmap string Value :=
  <["test_results" := runner_reply i st]> st.

(** The instruction of lines 130-147: on status PASS call [exit_loop]
    at once, on status FAIL answer with the corrected test code and
    nothing else. *)
Definition debugger_turn (i : nat) (st : gmap string Value) : Turn :=
  if is_pass st then CallExitLoop
  else if is_fail st then FinalText (debugger_fix i st)
  else debugger_else i st.

(** Lines 129 and 148: the tool gives the signal and leaves the state
    as it is; a final text goes to [generated_test_code]. *)
Definition debugger_and_refiner_agent (i : nat) (st : gmap string Value)
    : gmap string Value * Signal :=
  match debugger_turn i st with
  | CallExitLoop => (st, exit_loop)
  | FinalText code => (<["generated_test_code" := VStr code]> st, Continue)
  end.

(** [sub_agents] (lines 169-172): the Runner, then the Debugger, on the
    state the Runner left. *)
Definition iteration_body (i : nat) (st : gmap string Value)
    : gmap string Value * Signal :=
  debugger_and_refiner_agent i (test_runner_agent i st).

(** Modelled from the spec: the driver of [LoopAgent], a class of the
    agent framework that is not among the sources.  Section 4.4: a
    machine with the states RUNNING, TERMINATED_EARLY and
    TERMINATED_BY_LIMIT; each iteration runs the Runner then the
    Debugger against the current state; TERMINATED_EARLY when the
    Debugger signals early exit; TERMINATED_BY_LIMIT after the maximum
    iteration count is reached without early exit. *)
Definition step (l : Loop) : Loop :=
  match phase l with
  | RUNNING =>
      if (max_iterations <=? times_looped l)%nat then
        {| phase := TERMINATED_BY_LIMIT;
           times_looped := times_looped l;
           shared := shared l;
           ran := ran l |}
      else
        let (st, signal) := iteration_body (times_looped l) (shared l) in
        {| phase :=
             match signal with
             | EarlyExit => TERMINATED_EARLY
             | Continue => RUNNING
             end;
           times_looped := S (times_looped l);
           shared := st;
           ran := ran l ++ [Runner; Debugger] |}
  | _ => l
  end.

Definition enter (st : gmap string Value) : Loop :=
  {| phase := RUNNING; times_looped := 0; shared := st; ran := [] |}.

(** The loop run to its end: one step for each iteration allowed and
    one more to see the ceiling. *)
Definition refinement_loop (st : gmap string Value) : Loop :=
  Nat.iter (S max_iterations) step (enter st).
End Stages.

(** *** The final reporter (lines 177-188) *)

Definition fence : string := "```".

(** A markdown block of the given language, laid out as the pattern of
    main.py (line 83) expects the python block to be. *)
Definition fenced (lang body : string) : string :=
  fence +:+ lang +:+ LF +:+ body +:+ LF +:+ fence.

Definition source_to_test_import : string := "from source_to_test import ".
Definition sample_code_import : string := "from sample_code import ".

(** Step 2 of the instruction on one line: a line
    [from source_to_test import ...] becomes
    [from sample_code import ...], any other line stays. *)
Definition rewrite_line (line : string) : string :=
  match drop_prefix source_to_test_import line with
  | Some names => sample_code_import +:+ names
  | None => line
  end.

Definition rewrite_imports (code : string) : string :=
  join LF (map rewrite_line (PyStr.split LF code)).

Section Reporter.
(** Left to the language model: how a value that is not a string is
    printed, and the message that says the tests could not be fixed. *)
Variable render : Value -> string.
Variable message : gmap string Value -> string.

Definition shown (v : Value) : string :=
  match v with VStr s => s | _ => render v end.

(** The instruction of lines 181-186, for a state that holds both
    variables the instruction refers to.  The instruction names the parts
    of the answer; for a status other than PASS they are put here in the
    order in which it names them, one after the other. *)
Definition result_summarizer_agent (st : gmap string Value)
    : option string :=
  match st !! "generated_test_code", st !! "test_results" with
  | Some generated_test_code, Some test_results =>
      let modified := rewrite_imports (shown generated_test_code) in
      Some
        (if is_pass st then fenced "python" modified
         else
           message st +:+ LF +:+ fenced "python" modified +:+ LF
           +:+ fenced "json" (shown test_results))
  | _, _ => None
  end.
End Reporter.

End Coordinator.

(** ** Sample inputs *)

Module Samples.
Import PyStr PyExc Json Coordinator.

(** The block format: two scenarios separated by the delimiter. *)
Definition two_blocks : string :=
  "SCENARIO: adds two positives" +:+ LF +:+ "EXPECTED: returns their sum"
  +:+ LF +:+ "---" +:+ LF +:+ "SCENARIO: handles zero" +:+ LF
  +:+ "EXPECTED: returns the other operand".

(** The bullet format, with and without the Inputs bullet. *)
Definition bullet_block : string :=
  "Description: d" +:+ LF +:+ "- Expected Outcome: x".

Definition bullet_scenario : string :=
  "Description: checks add" +:+ LF +:+ "- Inputs: 1, 2" +:+ LF
  +:+ "- Expected Outcome: 3".

(** A bullet whose label is the short one. *)
Definition dashed_block : string :=
  "Description: d" +:+ LF +:+ "- EXPECTED: x".

(** A first message that carries bare source text, and one that carries
    nothing, both on a fresh session. *)
Definition raw_request : CallbackContext :=
  {| user_content :=
       Some {| parts := Some [ {| text := Some "def f(x): return x+1" |} ] |};
     state := ∅ |}.

Definition no_request : CallbackContext :=
  {| user_content := None; state := ∅ |}.

(** A first message whose text is empty, and one whose text is an
    integer of [n] digits. *)
Definition empty_request : CallbackContext :=
  {| user_content := Some {| parts := Some [ {| text := Some "" |} ] |};
     state := ∅ |}.

Fixpoint nines (n : nat) : string :=
  match n with
  | 0 => ""
  | S n => String "9" (nines n)
  end.

Definition integer_request (n : nat) : CallbackContext :=
  {| user_content :=
       Some {| parts := Some [ {| text := Some (nines n) |} ] |};
     state := ∅ |}.

(** An interpreter with its limits as installed, 4300 digits and a
    recursion limit of 1000, at a call some hundred calls deep. *)
Definition sys_default : Limits :=
  {| int_max_str_digits := 4300; recursion_spare := 900 |}.

(** Answers of the language model that do not depend on the state. *)
Definition reports (s : string) (i : nat) (st : gmap string Value) : Value :=
  VDict [("status", VStr s)].

Definition same_fix (i : nat) (st : gmap string Value) : string :=
  "from source_to_test import Foo".

Definition silent (i : nat) (st : gmap string Value) : Turn := FinalText "".

Definition plain (v : Value) : string := "".
Definition apology (st : gmap string Value) : string :=
  "The tests could not be fixed automatically.".

(** Session states at the end of a run. *)
Definition final_state (s code : string) : gmap string Value :=
  <["test_results" := VDict [("status", VStr s)]]>
    (<["generated_test_code" := VStr code]> ∅).

Definition foo_test : string :=
  "from source_to_test import Foo" +:+ LF +:+ "def test_foo(): assert Foo".

(** The end of a failed run: the test code, and under [test_results] the
    text of the Runner's last answer, the result object of a run in
    which the module of the test run could not be imported. *)
Definition quoted (s : string) : string :=
  String quote (s +:+ String quote "").

Definition failed_results : string :=
  "{" +:+ quoted "status" +:+ ": " +:+ quoted "FAIL" +:+ ", "
  +:+ quoted "error" +:+ ": "
  +:+ quoted "ModuleNotFoundError: No module named 'source_to_test'"
  +:+ "}".

Definition failed_state : gmap string Value :=
  <["test_results" := VStr failed_results]>
    (<["generated_test_code" := VStr foo_test]> ∅).

End Samples.

(** ** Occurrences of a label *)

Module Occurs.
Import PyStr Re.

(** Some suffix of [s], [s] itself included, satisfies [P]. *)
Fixpoint any_suffix (P : string -> bool) (s : string) : bool :=
  P s || match s with String _ s' => any_suffix P s' | "" => false end.

(** [p] stands at the head of [s], letter case apart. *)
Definition ihead (p s : string) : bool :=
  match eat true p s with Some _ => true | None => false end.

(** [p.lower() in s.lower()], for a pattern of ASCII characters. *)
Definition icontains (p s : string) : bool := any_suffix (ihead p) s.

(** The pattern matches at the head of [s]. *)
Definition matches_at (fl : flags) (r : re) (s : string) : bool :=
  match match_at fl r s with Some _ => true | None => false end.

(** [t] is [s] from some position on, and [t] is a stretch of [s]. *)
Definition suffix_of (t s : string) : Prop := exists pre, s = pre +:+ t.
Definition infix_of (t s : string) : Prop :=
  exists pre post, s = pre +:+ t +:+ post.

End Occurs.

(** ** [json.dumps] of a string *)

Module JsonDumps.
Import PyStr Json.

(** A hexadecimal digit in lower case. *)
Definition hexdigit (n : nat) : ascii :=
  if (n <? 10)%nat then ascii_of_nat (48 + n) else ascii_of_nat (87 + n).

(** One character of a string literal written with [ensure_ascii]: the
    quote and the backslash are escaped, five control characters have a
    short escape, the printable ASCII characters stand for themselves,
    and every other character is written [\u00XX]. *)
Definition dumps_char (c : ascii) : string :=
  let n := nat_of_ascii c in
  if Ascii.eqb c quote then String backslash (String quote "")
  else if Ascii.eqb c backslash then String backslash (String backslash "")
  else if (n =? 10)%nat then String backslash "n"
  else if (n =? 13)%nat then String backslash "r"
  else if (n =? 9)%nat then String backslash "t"
  else if (n =? 8)%nat then String backslash "b"
  else if (n =? 12)%nat then String backslash "f"
  else if ((32 <=? n) && (n <=? 126))%nat then String c ""
  else
    String backslash
      (String "u"
         (String "0"
            (String "0"
               (String (hexdigit (n / 16)) (String (hexdigit (n mod 16)) ""))))).

Fixpoint dumps_body (s : string) : string :=
  match s with
  | "" => ""
  | String c s' => dumps_char c +:+ dumps_body s'
  end.

(** [json.dumps(s)] for a [str]. *)
Definition dumps_str (s : string) : string :=
  String quote (dumps_body s +:+ String quote "").

End JsonDumps.

(** ** The rest of agents/coordinator.py *)

Module Callbacks.
Import PyStr Json JsonDumps Coordinator.

(** [BaseTool], of which the callback reads the name. *)
Record BaseTool : Type := { tool_name : string }.

(** Lines 65-76: the state after the callback, and what it returns. *)
Definition save_analysis_to_state (tool : BaseTool) (tool_response : Value)
    (st : gmap string Value) : gmap string Value * option Content :=
  if String.eqb (tool_name tool) "analyze_code_structure" then
    (<["static_analysis_report" := tool_response]> st,
     Some {| parts := Some [ {| text := Some "Static analysis complete." |} ] |})
  else (st, None).

Section Instructions.
(** [json.dumps] of a value that is not a [str]. *)
Variable json_dumps_other : Value -> string.

Definition json_dumps (v : Value) : string :=
  match v with VStr s => dumps_str s | _ => json_dumps_other v end.

(** Lines 106-123. *)
Definition build_test_runner_instruction (st : gmap string Value) : string :=
  let source_code := default (VStr "") (st !! "source_code") in
  let generated_code := default (VStr "") (st !! "generated_test_code") in
  let source_code_json_str := json_dumps source_code in
  let generated_code_json_str := json_dumps generated_code in
  LF
  +:+ "    You are a highly reliable test execution engine. Your task is to execute a test suite against source code."
  +:+ LF +:+ LF
  +:+ "    First, call the `execute_tests_sandboxed` tool with the following two arguments:"
  +:+ LF
  +:+ "    - `source_code_under_test`: Set this to the string "
  +:+ source_code_json_str +:+ LF
  +:+ "    - `generated_test_code`: Set this to the string "
  +:+ generated_code_json_str +:+ LF +:+ LF
  +:+ "    Second, take the entire, raw JSON output from `execute_tests_sandboxed` and immediately pass it as the `raw_execution_output` argument to the `parse_test_results` tool."
  +:+ LF
  +:+ "    Your final output must be only the structured JSON object returned by the `parse_test_results` tool. Do not add any commentary or explanation."
  +:+ LF +:+ "    ".
End Instructions.

End Callbacks.

(** ** main.py *)

Module Main.
Import PyStr Re PyExc TestDesignTools Json JsonDumps Coordinator.

(** Lines 45-48: [json.dumps] of the request object, with the default
    separators. *)
Definition initial_request (source_code_to_test : string) : string :=
  "{" +:+ dumps_str "source_code" +:+ ": " +:+ dumps_str source_code_to_test
  +:+ ", " +:+ dumps_str "language" +:+ ": " +:+ dumps_str "python" +:+ "}".

(** Lines 52-55. *)
Definition user_message (source_code_to_test : string) : Content :=
  {| parts := Some [ {| text := Some (initial_request source_code_to_test) |} ] |}.

(** What the loop of lines 60-76 reads of an event. *)
Record Event : Type :=
  { author : string; content : option Content; is_final_response : bool }.

(** Lines 66-70. *)
Definition content_text (event : Event) : string :=
  match content event with
  | Some c =>
      match parts c with
      | Some ps =>
          fold_left
            (fun content_text part =>
               match text part with
               | Some t =>
                   if nonempty t then content_text +:+ t +:+ LF
                   else content_text
               | None => content_text
               end)
            ps ""
      | None => ""
      end
  | None => ""
  end.

(** Lines 58-76: the value of [final_output] after the events. *)
Definition final_output (events : list Event) : string :=
  fold_left
    (fun final_output event =>
       if is_final_response event then strip (content_text event)
       else final_output)
    events "".

(** Line 83, [```python  \n  ( [\s\S]+? )  \n  ```], token by token.  The
    class holds every character, as the dot does under the flag that the
    call sets. *)
Definition python_block : re :=
  (Lit (fence +:+ "python" +:+ LF) +> Grp (Rep Dot 1 false)
   +> Lit (LF +:+ fence))%re.

(** [re.DOTALL] *)
Definition dotall : flags := {| IGNORECASE := false; DOTALL := true |}.

(** Lines 83-93: the text written to final_test_suite.py, if any. *)
Definition final_code (final_output : string) : result (option string) :=
  match search dotall python_block final_output with
  | Some python_code_match =>
      match group1_strip python_code_match with
      | Return final_code => Return (Some final_code)
      | Raise e => Raise e
      end
  | None => Return None
  end.

Section Run.
(** The runner on the root agent: the events of a run. *)
Variable run_async : Content -> list Event.

(** Lines 19-93, with the content of sample_code.py, if the file is
    there, as the argument. *)
Definition main (sample_code_py : option string) : result (option string) :=
  match sample_code_py with
  | None => Return None
  | Some source_code_to_test =>
      final_code (final_output (run_async (user_message source_code_to_test)))
  end.
End Run.

End Main.

(** ** More sample inputs *)

Module MoreSamples.
Import PyStr Json JsonDumps Coordinator Callbacks Main.

(** A request object that names no language, as text and as the first
    message of a session that already holds a key of its own. *)
Definition bare_request : string :=
  "{" +:+ dumps_str "source_code" +:+ ": " +:+ dumps_str "x = 1" +:+ "}".

Definition resumed_request : CallbackContext :=
  {| user_content :=
       Some {| parts := Some [ {| text := Some bare_request |} ] |};
     state := {[ "user_name" := VStr "ada" ]} |}.

(** A report whose message has no backquote. *)
Definition last_event (report : string) : Event :=
  {| author := "ResultSummarizer";
     content := Some {| parts := Some [ {| text := Some report |} ] |};
     is_final_response := true |}.

End MoreSamples.

(** * Properties *)

Import PyStr Re PyExc TestDesignTools Json Coordinator Samples.

(** ** Strings *)

Lemma split_scan_not_nil hit s :
  forall skip cur, split_scan hit skip cur s <> [].
Proof.
  induction s as [|c s IH]; intros skip cur; simpl; [discriminate|].
  destruct skip as [|n]; [|apply IH].
  destruct (hit (String c s)) as [[|n]|]; [apply IH|discriminate|apply IH].
Qed.

(** [str.split] gives at least one piece. *)
Lemma split_length sep s : 1 <= length (PyStr.split sep s).
Proof.
  unfold PyStr.split.
  destruct (split_scan _ 0 "" s) eqn:E;
    [now apply split_scan_not_nil in E|simpl; lia].
Qed.

Lemma drop_prefix_app_r p :
  forall s r t,
    drop_prefix p s = Some r -> drop_prefix p (s +:+ t) = Some (r +:+ t).
Proof.
  induction p as [|a p IH]; intros s r t; simpl.
  - now intros [= ->].
  - destruct s as [|b s]; [discriminate|]. simpl.
    destruct (Ascii.eqb a b); [apply IH|discriminate].
Qed.

Lemma startswith_app_r p s t :
  startswith p s = true -> startswith p (s +:+ t) = true.
Proof.
  unfold startswith.
  destruct (drop_prefix p s) as [r|] eqn:E; [|discriminate].
  now rewrite (drop_prefix_app_r _ _ _ t E).
Qed.

Lemma startswith_self p : startswith p p = true.
Proof.
  unfold startswith. induction p as [|a p IH]; simpl; [reflexivity|].
  now rewrite Ascii.eqb_refl.
Qed.

Lemma contains_nil p : contains p "" = startswith p "".
Proof. simpl. apply orb_false_r. Qed.

Lemma contains_cons p c s :
  contains p (String c s) = startswith p (String c s) || contains p s.
Proof. reflexivity. Qed.

Lemma contains_here p s : startswith p s = true -> contains p s = true.
Proof.
  intros H. destruct s; [now rewrite contains_nil|].
  now rewrite contains_cons, H.
Qed.

Lemma contains_self p : contains p p = true.
Proof. apply contains_here, startswith_self. Qed.

Lemma contains_app_l p s t :
  contains p s = true -> contains p (s +:+ t) = true.
Proof.
  induction s as [|c s IH].
  - rewrite contains_nil. intros H.
    now apply contains_here, (startswith_app_r p "" t).
  - rewrite contains_cons. intros [H|H]%orb_true_iff.
    + now apply contains_here, startswith_app_r.
    + change (String c s +:+ t) with (String c (s +:+ t)).
      rewrite contains_cons, (IH H). apply orb_true_r.
Qed.

Lemma contains_app_r p t s :
  contains p s = true -> contains p (t +:+ s) = true.
Proof.
  intros H. induction t as [|c t IH]; [exact H|].
  change (String c t +:+ s) with (String c (t +:+ s)).
  rewrite contains_cons, IH. apply orb_true_r.
Qed.

(** A joined text contains each of its pieces. *)
Lemma contains_join x sep l : In x l -> contains x (join sep l) = true.
Proof.
  induction l as [|y l IH]; [intros []|].
  intros [->|Hin].
  - destruct l; simpl; [apply contains_self|].
    apply contains_app_l, contains_self.
  - destruct l as [|z l]; [destruct Hin|].
    change (join sep (y :: z :: l)) with (y +:+ sep +:+ join sep (z :: l)).
    now apply contains_app_r, contains_app_r, IH.
Qed.

(** ** The scenario parser *)

(** The parser has three outcomes and no fourth: a list that is not
    empty, the [ValueError] of line 74, or the [AttributeError] of
    [group1_strip]. *)
Lemma each_block_raises blocks :
  forall scenarios e,
    each_block blocks scenarios = Raise e ->
    e = AttributeError "'NoneType' object has no attribute 'strip'".
Proof.
  induction blocks as [|block rest IH]; intros scenarios e; simpl;
    [discriminate|].
  destruct (negb (nonempty (strip block))); [apply IH|].
  assert (Hextract : forall e',
            snd (extract block) = Raise e' ->
            e' = AttributeError "'NoneType' object has no attribute 'strip'").
  { intros e'. unfold extract, captures, group1_strip.
    destruct (search dotall_ignorecase desc_v2 block) as [md|];
      destruct (search dotall_ignorecase outcome_v2 block) as [mo|]; simpl;
      repeat match goal with
        | |- context [match search ?f ?r ?b with _ => _ end] =>
            destruct (search f r b)
        | |- context [match group1 ?m with _ => _ end] => destruct (group1 m)
        end;
      simpl; congruence. }
  destruct (snd (extract block)) as [[[d|] [o|]]|e'];
    try apply IH; [|intros [= <-]; now apply Hextract].
  destruct (nonempty d && nonempty o); [|apply IH].
  unfold validate. apply IH.
Qed.

Lemma generate_test_scenarios_outcomes text :
  (exists scenario rest,
     generate_test_scenarios text = Return (scenario :: rest))
  \/ generate_test_scenarios text
     = Raise (ValueError "Could not parse any valid scenarios from the provided text.")
  \/ generate_test_scenarios text
     = Raise (AttributeError "'NoneType' object has no attribute 'strip'").
Proof.
  unfold generate_test_scenarios.
  destruct (each_block _ []) as [[|scenario rest]|e] eqn:E.
  - right; left; reflexivity.
  - left; eauto.
  - right; right. now rewrite (each_block_raises _ _ _ E).
Qed.

(** The exception of line 51 whenever the second search succeeds without
    its group. *)
Lemma extract_without_group block md mo :
  search dotall_ignorecase desc_v2 block = Some md ->
  search dotall_ignorecase outcome_v2 block = Some mo ->
  group1 mo = None ->
  snd (extract block)
  = Raise (AttributeError "'NoneType' object has no attribute 'strip'").
Proof.
  intros Hd Ho Hg. unfold extract. rewrite Hd, Ho. simpl.
  unfold captures, group1_strip. rewrite Hg. now destruct (group1 md).
Qed.

(** Claim C4, on the bullet format that the docstring of the parser
    announces: the call ends neither with a list nor with the [ValueError]
    that reports unparsable text; it ends with an [AttributeError]. *)
Theorem generate_test_scenarios_bullet_format_raises :
  generate_test_scenarios bullet_scenario
  = Raise (AttributeError "'NoneType' object has no attribute 'strip'")
  /\ (forall scenarios,
        generate_test_scenarios bullet_scenario <> Return scenarios)
  /\ (forall msg,
        generate_test_scenarios bullet_scenario <> Raise (ValueError msg)).
Proof.
  assert (H : generate_test_scenarios bullet_scenario
              = Raise (AttributeError "'NoneType' object has no attribute 'strip'"))
    by (vm_compute; reflexivity).
  rewrite H. repeat split; intros; discriminate.
Qed.

(** Claim C5, on the example of the specification: two scenarios come
    back, with the expected outcomes of the example, but each description
    runs on to the end of its block and so holds the EXPECTED line too. *)
Theorem generate_test_scenarios_block_format_descriptions :
  generate_test_scenarios two_blocks
  = Return
      [ {| description :=
             "adds two positives" +:+ LF +:+ "EXPECTED: returns their sum";
           expected_outcome := "returns their sum" |};
        {| description :=
             "handles zero" +:+ LF +:+ "EXPECTED: returns the other operand";
           expected_outcome := "returns the other operand" |} ]
  /\ generate_test_scenarios two_blocks
     <> Return
          [ {| description := "adds two positives";
               expected_outcome := "returns their sum" |};
            {| description := "handles zero";
               expected_outcome := "returns the other operand" |} ].
Proof. split; vm_compute; [reflexivity|discriminate]. Qed.

(** Claim C6: the secondary mechanisms are fallbacks.  The split on the
    Scenario marker is made only when the split on the delimiter gave one
    block, and otherwise the blocks are those of the delimiter; in a
    block, a legacy pattern is searched only when a primary search found
    nothing, and when both primary searches succeed the fields are read
    from their matches. *)
Theorem secondary_mechanisms_are_fallbacks
    (natural_language_output block : string) :
  let delimited := PyStr.split "---" (strip natural_language_output) in
  (In Marker (fst (scenario_blocks natural_language_output)) ->
   length delimited = 1) /\
  (length delimited <> 1 ->
   scenario_blocks natural_language_output = ([Delimiter], delimited)) /\
  (In DescV1 (fst (extract block)) \/ In OutcomeV1 (fst (extract block)) ->
   search dotall_ignorecase desc_v2 block = None
   \/ search dotall_ignorecase outcome_v2 block = None) /\
  (forall md mo,
     search dotall_ignorecase desc_v2 block = Some md ->
     search dotall_ignorecase outcome_v2 block = Some mo ->
     extract block = ([DescV2; OutcomeV2], captures md mo)).
Proof.
  intros delimited.
  assert (Hlen : 1 <= length delimited) by apply split_length.
  repeat split.
  - unfold scenario_blocks. fold delimited.
    destruct (Nat.ltb_spec (length delimited) 2) as [Hlt|Hge]; simpl.
    + lia.
    + intros [H|[]]. discriminate.
  - intros Hne. unfold scenario_blocks. fold delimited.
    destruct (Nat.ltb_spec (length delimited) 2) as [Hlt|Hge];
      [lia|reflexivity].
  - unfold extract.
    destruct (search dotall_ignorecase desc_v2 block) as [md|]; [|now left].
    destruct (search dotall_ignorecase outcome_v2 block) as [mo|];
      [|now right].
    simpl. intros [[H|[H|[]]]|[H|[H|[]]]]; discriminate.
  - intros md mo Hd Ho. unfold extract. now rewrite Hd, Ho.
Qed.

Lemma secondary_mechanisms_are_fallbacks_witness :
  scenario_blocks two_blocks
  = ([Delimiter], PyStr.split "---" (strip two_blocks))
  /\ extract dashed_block
     = ([DescV2; OutcomeV2], Return (Some "d", Some "x")).
Proof.
  destruct (secondary_mechanisms_are_fallbacks two_blocks dashed_block)
    as (_ & Hsplit & _ & Hprimary).
  split.
  - apply Hsplit. vm_compute. discriminate.
  - rewrite (Hprimary {| start := 0; span := 26; group1 := Some "d" |}
                      {| start := 17; span := 11; group1 := Some "x" |});
      vm_compute; reflexivity.
Defined.

(** Claim C10: there is a text on which the parser raises
    [AttributeError].  In the bullet block the second primary pattern
    matches by its bare alternative, the sixteen characters of the long
    label, so that group 1 takes no part; the first primary pattern
    matches as well, and stripping the missing group raises. *)
Theorem outcome_v2_bare_alternative_raises :
  exists text md mo,
    search dotall_ignorecase desc_v2 text = Some md /\
    search dotall_ignorecase outcome_v2 text = Some mo /\
    span mo = String.length "Expected Outcome" /\
    group1 mo = None /\
    generate_test_scenarios text
    = Raise (AttributeError "'NoneType' object has no attribute 'strip'").
Proof.
  exists bullet_block,
    {| start := 0; span := 34; group1 := Some "d" |},
    {| start := 17; span := 16; group1 := None |}.
  repeat split; vm_compute; reflexivity.
Qed.

(** ** State initialisation *)

(** Claim C3, as stated, fails on the path of line 35: a first message
    without text leaves a fresh state without the four keys. *)
Lemma initialize_state_without_text_skips_defaults :
  snd (initialize_state (loads sys_default) no_request) = None /\
  ~ defaults_seeded (fst (initialize_state (loads sys_default) no_request)).
Proof.
  split; [reflexivity|].
  intros [Hresults _]. vm_compute in Hresults. discriminate.
Qed.

(** The text that passes the guard of line 32 is the text of the first
    part, when it is not empty. *)
Lemma guarded_text_first_part ctx content part rest raw_text :
  user_content ctx = Some content ->
  parts content = Some (part :: rest) ->
  text part = Some raw_text ->
  guarded_text ctx = if nonempty raw_text then Some raw_text else None.
Proof. intros Hc Hp Ht. unfold guarded_text. now rewrite Hc, Hp, Ht. Qed.

(** A text that is no request object leaves the state of line 38
    untouched and [is_json_input] false, when [json.loads] returns or
    raises [JSONDecodeError]. *)
Lemma from_json_raw json_loads raw_text st :
  json_loads raw_text = Raise JSONDecodeError
  \/ (exists v,
        json_loads raw_text = Return v /\
        forall d, v = VDict d -> dict_mem "source_code" d = false) ->
  from_json json_loads raw_text st = Return (st, false).
Proof.
  unfold from_json. intros [-> | (v & -> & Hraw)]; [reflexivity|].
  destruct v as [| | | | |d]; try reflexivity.
  now rewrite (Hraw d eq_refl).
Qed.

(** The attempt of lines 38-49 ends either with a state or with an
    exception of [json.loads] other than [JSONDecodeError]. *)
Lemma from_json_outcome json_loads raw_text st :
  match from_json json_loads raw_text st with
  | Return _ =>
      forall e, json_loads raw_text = Raise e -> e = JSONDecodeError
  | Raise e => json_loads raw_text = Raise e /\ e <> JSONDecodeError
  end.
Proof.
  unfold from_json.
  destruct (json_loads raw_text) as [[| | | | |d]|[msg|msg| |msg]];
    try discriminate; try (now split);
    try (intros e [= <-]; reflexivity).
  destruct (dict_mem "source_code" d); discriminate.
Qed.

(** Initialisation ends with an exception exactly when there is text and
    [json.loads] raises on it something else than [JSONDecodeError]; the
    state is then as it was. *)
Lemma initialize_state_exception json_loads ctx e :
  snd (initialize_state json_loads ctx) = Some e <->
  exists raw_text,
    guarded_text ctx = Some raw_text
    /\ json_loads raw_text = Raise e /\ e <> JSONDecodeError.
Proof.
  unfold initialize_state.
  destruct (guarded_text ctx) as [raw_text|].
  - pose proof (from_json_outcome json_loads raw_text (state ctx)) as H.
    destruct (from_json json_loads raw_text (state ctx)) as [[st b]|e'].
    + simpl. split; [discriminate|].
      intros (t & [= <-] & Hr & Hne). now apply H in Hr.
    + simpl. destruct H as [Hr Hne]. split.
      * intros [= <-]. eauto.
      * intros (t & [= <-] & Hr' & _). congruence.
  - simpl. split; [discriminate|]. now intros (t & [=] & _).
Qed.

(** Claim C3, amended: when the first message carries text and
    initialisation completes, the four keys hold their defaults,
    whatever the text is; it completes unless [json.loads] raises
    something else than [JSONDecodeError]; when the message carries no
    text, initialisation records the error and does nothing else to the
    state. *)
Theorem initialize_state_defaults_after_text
    (json_loads : string -> result Value) (ctx : CallbackContext) :
  (guarded_text ctx <> None ->
   snd (initialize_state json_loads ctx) = None ->
   defaults_seeded (fst (initialize_state json_loads ctx))) /\
  (forall raw_text,
     guarded_text ctx = Some raw_text ->
     (forall e, json_loads raw_text = Raise e -> e = JSONDecodeError) ->
     snd (initialize_state json_loads ctx) = None) /\
  (guarded_text ctx = None ->
   initialize_state json_loads ctx
   = (<["initialization_error" := VStr "No input content."]> (state ctx),
      None)).
Proof.
  split; [|split].
  - unfold initialize_state.
    destruct (guarded_text ctx) as [raw_text|]; [intros _|congruence].
    destruct (from_json json_loads raw_text (state ctx))
      as [[st is_json_input]|e]; [intros _|discriminate].
    unfold defaults_seeded. repeat split; by simplify_map_eq.
  - intros raw_text Htext Hloads.
    destruct (snd (initialize_state json_loads ctx)) as [e|] eqn:E;
      [|reflexivity].
    apply initialize_state_exception in E as (t & Ht & Hr & Hne).
    assert (t = raw_text) as -> by congruence. now apply Hloads in Hr.
  - unfold initialize_state. now intros ->.
Qed.

Lemma initialize_state_defaults_after_text_witness :
  defaults_seeded (fst (initialize_state (loads sys_default) raw_request)).
Proof.
  apply (initialize_state_defaults_after_text (loads sys_default) raw_request).
  - vm_compute. discriminate.
  - vm_compute. reflexivity.
Defined.

(** Claim C7, as stated, fails on two texts that are no request object.
    The empty text does not pass the guard of line 32: the error is
    recorded and no source code is stored.  An integer of 4301 digits
    makes [json.loads] raise a [ValueError] that line 47 does not catch:
    initialisation ends with it and stores nothing. *)
Lemma initialize_state_text_not_stored :
  (loads sys_default "" = Raise JSONDecodeError /\
   initialize_state (loads sys_default) empty_request
   = ({[ "initialization_error" := VStr "No input content." ]}, None)) /\
  initialize_state (loads sys_default) (integer_request 4301)
  = (∅,
     Some (ValueError
             "Exceeds the limit (4300 digits) for integer string conversion: value has 4301 digits; use sys.set_int_max_str_digits() to increase the limit")).
Proof. repeat split; vm_compute; reflexivity. Qed.

(** Claim C7, amended: for a first part whose text is not empty and
    which [json.loads] rejects with [JSONDecodeError] or turns into a
    value other than an object with the key [source_code],
    initialisation stores the text itself under [source_code] and python
    under [language], raises nothing and records no error; for a first
    part whose text is empty it records the error, stores nothing else
    and raises nothing. *)
Theorem initialize_state_raw_text
    (json_loads : string -> result Value) (ctx : CallbackContext)
    (content : Content) (part : Part) (rest : list Part)
    (raw_text : string) :
  user_content ctx = Some content ->
  parts content = Some (part :: rest) ->
  text part = Some raw_text ->
  (raw_text <> "" ->
   json_loads raw_text = Raise JSONDecodeError
   \/ (exists v,
         json_loads raw_text = Return v /\
         forall d, v = VDict d -> dict_mem "source_code" d = false) ->
   let r := initialize_state json_loads ctx in
   fst r !! "source_code" = Some (VStr raw_text) /\
   fst r !! "language" = Some (VStr "python") /\
   snd r = None /\
   fst r !! "initialization_error" = state ctx !! "initialization_error") /\
  (raw_text = "" ->
   initialize_state json_loads ctx
   = (<["initialization_error" := VStr "No input content."]> (state ctx),
      None)).
Proof.
  intros Hc Hp Ht.
  pose proof (guarded_text_first_part _ _ _ _ _ Hc Hp Ht) as Hguard.
  unfold initialize_state. split.
  - intros Hne Hraw.
    destruct raw_text as [|c raw_text]; [congruence|].
    simpl in Hguard. rewrite Hguard, (from_json_raw _ _ _ Hraw).
    cbv zeta. simpl negb. cbv iota. simpl fst. simpl snd.
    repeat split; by simplify_map_eq.
  - intros ->. simpl in Hguard. now rewrite Hguard.
Qed.

Lemma initialize_state_raw_text_witness :
  let r := initialize_state (loads sys_default) raw_request in
  fst r !! "source_code" = Some (VStr "def f(x): return x+1") /\
  fst r !! "language" = Some (VStr "python") /\
  snd r = None /\
  fst r !! "initialization_error" = None.
Proof.
  eapply (initialize_state_raw_text (loads sys_default) raw_request).
  - reflexivity.
  - reflexivity.
  - reflexivity.
  - discriminate.
  - left. vm_compute. reflexivity.
Defined.

(** ** The refinement loop *)

Section RefinementLoop.
Variable runner_reply : nat -> gmap string Value -> Value.
Variable debugger_fix : nat -> gmap string Value -> string.
Variable debugger_else : nat -> gmap string Value -> Turn.

Lemma status_after_runner i st :
  status (test_runner_agent runner_reply i st)
  = status_of (runner_reply i st).
Proof. unfold status, test_runner_agent. now rewrite lookup_insert_eq. Qed.

Lemma body_on_fail i st :
  status_of (runner_reply i st) = Some "FAIL" ->
  iteration_body runner_reply debugger_fix debugger_else i st
  = (<["generated_test_code" :=
         VStr (debugger_fix i (test_runner_agent runner_reply i st))]>
       (test_runner_agent runner_reply i st),
     Continue).
Proof.
  intros H.
  unfold iteration_body, debugger_and_refiner_agent, debugger_turn,
    is_pass, is_fail.
  now rewrite status_after_runner, H.
Qed.

Lemma body_on_pass i st :
  status_of (runner_reply i st) = Some "PASS" ->
  iteration_body runner_reply debugger_fix debugger_else i st
  = (test_runner_agent runner_reply i st, EarlyExit).
Proof.
  intros H.
  unfold iteration_body, debugger_and_refiner_agent, debugger_turn, is_pass.
  now rewrite status_after_runner, H.
Qed.

Lemma step_running l :
  phase l = RUNNING -> times_looped l < max_iterations ->
  Coordinator.step runner_reply debugger_fix debugger_else l
  = (let r := iteration_body runner_reply debugger_fix debugger_else
                (times_looped l) (shared l) in
     {| phase := match snd r with
                 | EarlyExit => TERMINATED_EARLY
                 | Continue => RUNNING
                 end;
        times_looped := S (times_looped l);
        shared := fst r;
        ran := ran l ++ [Runner; Debugger] |}).
Proof.
  intros Hp Hlt. unfold Coordinator.step. rewrite Hp.
  destruct (Nat.leb_spec max_iterations (times_looped l)); [lia|].
  now destruct (iteration_body _ _ _ _ _).
Qed.

Lemma step_stopped l :
  phase l <> RUNNING ->
  Coordinator.step runner_reply debugger_fix debugger_else l = l.
Proof. unfold Coordinator.step. now destruct (phase l). Qed.

Lemma step_bounded l :
  times_looped l <= max_iterations ->
  times_looped (Coordinator.step runner_reply debugger_fix debugger_else l)
  <= max_iterations.
Proof.
  intros Hle. unfold Coordinator.step. destruct (phase l); try assumption.
  destruct (Nat.leb_spec max_iterations (times_looped l)); [assumption|].
  destruct (iteration_body _ _ _ _ _). simpl. lia.
Qed.

(** A loop that is still running after [n] steps has made [n]
    iterations. *)
Lemma iter_step_progress n st :
  let l :=
    Nat.iter n (Coordinator.step runner_reply debugger_fix debugger_else)
      (enter st) in
  (phase l = RUNNING -> times_looped l = n) /\ times_looped l <= n.
Proof.
  induction n as [|n [IHrun IHle]]; simpl; [split; [reflexivity|lia]|].
  set (l := Nat.iter n _ (enter st)) in *.
  unfold Coordinator.step. destruct (phase l) eqn:Hp.
  - specialize (IHrun eq_refl).
    destruct (Nat.leb_spec max_iterations (times_looped l)).
    + simpl. split; [intros [=]|lia].
    + destruct (iteration_body _ _ _ _ _). simpl. split; [intros _|]; lia.
  - rewrite Hp. split; [intros [=]|lia].
  - rewrite Hp. split; [intros [=]|lia].
Qed.

(** Whatever the stages answer, the loop ends, and within the ceiling. *)
Lemma refinement_loop_stops st :
  phase (refinement_loop runner_reply debugger_fix debugger_else st)
  <> RUNNING
  /\ times_looped (refinement_loop runner_reply debugger_fix debugger_else st)
     <= max_iterations.
Proof.
  unfold refinement_loop. split.
  - change (Nat.iter (S max_iterations) ?f ?x)
      with (f (Nat.iter max_iterations f x)).
    pose proof (iter_step_progress max_iterations st) as [Hn _].
    set (l := Nat.iter max_iterations _ (enter st)) in *.
    unfold Coordinator.step. destruct (phase l) eqn:Hp.
    + rewrite (Hn eq_refl), Nat.leb_refl. discriminate.
    + rewrite Hp. discriminate.
    + rewrite Hp. discriminate.
  - generalize (S max_iterations). intros n.
    induction n; simpl; [unfold max_iterations; lia|now apply step_bounded].
Qed.

Lemma step_on_fail l :
  phase l = RUNNING -> times_looped l < max_iterations ->
  status_of (runner_reply (times_looped l) (shared l)) = Some "FAIL" ->
  Coordinator.step runner_reply debugger_fix debugger_else l
  = {| phase := RUNNING;
       times_looped := S (times_looped l);
       shared :=
         <["generated_test_code" :=
             VStr (debugger_fix (times_looped l)
                     (test_runner_agent runner_reply (times_looped l)
                        (shared l)))]>
           (test_runner_agent runner_reply (times_looped l) (shared l));
       ran := ran l ++ [Runner; Debugger] |}.
Proof.
  intros Hp Hlt Hfail. rewrite step_running by assumption.
  now rewrite body_on_fail.
Qed.

Lemma step_on_pass l :
  phase l = RUNNING -> times_looped l < max_iterations ->
  status_of (runner_reply (times_looped l) (shared l)) = Some "PASS" ->
  Coordinator.step runner_reply debugger_fix debugger_else l
  = {| phase := TERMINATED_EARLY;
       times_looped := S (times_looped l);
       shared := test_runner_agent runner_reply (times_looped l) (shared l);
       ran := ran l ++ [Runner; Debugger] |}.
Proof.
  intros Hp Hlt Hpass. rewrite step_running by assumption.
  now rewrite body_on_pass.
Qed.

(** While the Runner reports FAIL the loop keeps running, one round of
    Runner then Debugger for each step. *)
Lemma iter_all_fail st n :
  (forall i s, status_of (runner_reply i s) = Some "FAIL") ->
  n <= max_iterations ->
  let l :=
    Nat.iter n (Coordinator.step runner_reply debugger_fix debugger_else)
      (enter st) in
  phase l = RUNNING /\ times_looped l = n /\
  ran l = flat_map (fun _ => [Runner; Debugger]) (seq 0 n).
Proof.
  intros Hfail. induction n as [|n IH]; intros Hle; [now simpl|].
  destruct IH as (Hp & Ht & Hr); [lia|].
  cbv zeta.
  change (Nat.iter (S n) ?f ?x) with (f (Nat.iter n f x)).
  rewrite step_on_fail; [|assumption|lia|apply Hfail].
  simpl phase. simpl times_looped. simpl ran.
  now rewrite Ht, Hr, seq_S, flat_map_app.
Qed.

(** Claim C1: when the Runner writes a result with status FAIL in every
    iteration, the loop runs the Runner and then the Debugger three
    times, no more, and ends in TERMINATED_BY_LIMIT. *)
Theorem refinement_loop_stops_at_ceiling st :
  (forall i s, status_of (runner_reply i s) = Some "FAIL") ->
  let l := refinement_loop runner_reply debugger_fix debugger_else st in
  phase l = TERMINATED_BY_LIMIT /\
  times_looped l = 3 /\
  ran l = [Runner; Debugger; Runner; Debugger; Runner; Debugger].
Proof.
  intros Hfail.
  destruct (iter_all_fail st max_iterations Hfail (le_n _)) as (Hp & Ht & Hr).
  unfold refinement_loop.
  change (Nat.iter (S max_iterations) ?f ?x)
    with (f (Nat.iter max_iterations f x)).
  cbv zeta. unfold Coordinator.step at 1 3 5.
  rewrite Hp, Ht, Nat.leb_refl.
  cbn [phase times_looped ran]. now rewrite Hr.
Qed.

(** Claim C2: when the Runner writes a result with status PASS in the
    first iteration, the loop ends after that one iteration in
    TERMINATED_EARLY, by the Debugger's signal, and the Debugger leaves
    the state as the Runner left it, [generated_test_code] being what it
    was when the loop was entered. *)
Theorem refinement_loop_exits_on_first_pass st :
  status_of (runner_reply 0 st) = Some "PASS" ->
  let l := refinement_loop runner_reply debugger_fix debugger_else st in
  phase l = TERMINATED_EARLY /\
  times_looped l = 1 /\
  ran l = [Runner; Debugger] /\
  debugger_and_refiner_agent debugger_fix debugger_else 0
    (test_runner_agent runner_reply 0 st)
  = (test_runner_agent runner_reply 0 st, exit_loop) /\
  shared l = test_runner_agent runner_reply 0 st /\
  shared l !! "generated_test_code" = st !! "generated_test_code".
Proof.
  intros Hpass. unfold refinement_loop.
  change (Nat.iter (S max_iterations) ?f ?x)
    with (f (f (f (f x)))).
  rewrite (step_on_pass (enter st));
    [|reflexivity|unfold max_iterations; simpl; lia|exact Hpass].
  rewrite !step_stopped by (simpl; discriminate). simpl.
  repeat split.
  - now apply body_on_pass.
  - unfold test_runner_agent. now rewrite lookup_insert_ne.
Qed.

End RefinementLoop.

Lemma refinement_loop_stops_at_ceiling_witness :
  let l :=
    refinement_loop (reports "FAIL") same_fix silent
      (final_state "NOT_RUN" foo_test) in
  phase l = TERMINATED_BY_LIMIT /\
  times_looped l = 3 /\
  ran l = [Runner; Debugger; Runner; Debugger; Runner; Debugger].
Proof.
  apply refinement_loop_stops_at_ceiling. intros i s. reflexivity.
Defined.

Lemma refinement_loop_exits_on_first_pass_witness :
  let l :=
    refinement_loop (reports "PASS") same_fix silent
      (final_state "NOT_RUN" foo_test) in
  phase l = TERMINATED_EARLY /\
  times_looped l = 1 /\
  shared l !! "generated_test_code" = Some (VStr foo_test).
Proof.
  destruct (refinement_loop_exits_on_first_pass
              (reports "PASS") same_fix silent
              (final_state "NOT_RUN" foo_test) eq_refl)
    as (Hphase & Hcount & _ & _ & _ & Hcode).
  cbv zeta. rewrite Hphase, Hcount, Hcode. repeat split.
Defined.

(** ** The final reporter *)

Lemma is_pass_iff st : is_pass st = true <-> status st = Some "PASS".
Proof.
  unfold is_pass. destruct (status st) as [s|]; [|split; discriminate].
  rewrite String.eqb_eq. split; congruence.
Qed.

(** No rewritten line is an import from the module of the test run. *)
Lemma rewrite_line_not_source_to_test line :
  startswith source_to_test_import (rewrite_line line) = false.
Proof.
  unfold rewrite_line.
  destruct (drop_prefix source_to_test_import line) as [names|] eqn:E.
  - reflexivity.
  - unfold startswith. now rewrite E.
Qed.

(** Claim C8: with status PASS the report is the python block of the
    rewritten code and nothing else; with any other status, or none, it
    is a message, the python block of the rewritten code, and after it
    the json block of the test results as they are. *)
Theorem result_summarizer_agent_output
    (render : Value -> string) (message : gmap string Value -> string)
    (st : gmap string Value) (code results : Value) :
  st !! "generated_test_code" = Some code ->
  st !! "test_results" = Some results ->
  let modified := rewrite_imports (shown render code) in
  (status st = Some "PASS" ->
   result_summarizer_agent render message st
   = Some (fenced "python" modified)) /\
  (status st <> Some "PASS" ->
   result_summarizer_agent render message st
   = Some (message st +:+ LF +:+ fenced "python" modified +:+ LF
           +:+ fenced "json" (shown render results))).
Proof.
  intros Hcode Hresults modified. unfold result_summarizer_agent.
  rewrite Hcode, Hresults. fold modified. split; intros H.
  - apply is_pass_iff in H. now rewrite H.
  - destruct (is_pass st) eqn:E; [|reflexivity].
    now apply is_pass_iff in E.
Qed.

Lemma result_summarizer_agent_output_witness :
  result_summarizer_agent plain apology (final_state "PASS" foo_test)
  = Some (fenced "python" (rewrite_imports foo_test))
  /\ result_summarizer_agent plain apology (final_state "FAIL" foo_test)
     = Some (apology (final_state "FAIL" foo_test) +:+ LF
             +:+ fenced "python" (rewrite_imports foo_test) +:+ LF
             +:+ fenced "json" (plain (VDict [("status", VStr "FAIL")]))).
Proof.
  split.
  - apply (result_summarizer_agent_output plain apology
             (final_state "PASS" foo_test) (VStr foo_test)
             (VDict [("status", VStr "PASS")]));
      vm_compute; reflexivity.
  - apply (result_summarizer_agent_output plain apology
             (final_state "FAIL" foo_test) (VStr foo_test)
             (VDict [("status", VStr "FAIL")]));
      vm_compute; first [reflexivity | discriminate].
Defined.

Import Occurs JsonDumps Callbacks Main MoreSamples.

(** ** More on strings *)

Lemma append_nil_r s : s +:+ "" = s.
Proof.
  induction s as [|c s IH]; [reflexivity|].
  change (String c s +:+ "") with (String c (s +:+ "")). now rewrite IH.
Qed.

Lemma append_assoc (a b c : string) : (a +:+ b) +:+ c = a +:+ b +:+ c.
Proof.
  induction a as [|x a IH]; [reflexivity|].
  change ((String x a +:+ b) +:+ c) with (String x ((a +:+ b) +:+ c)).
  now rewrite IH.
Qed.

Lemma rstrip_rstrip s : rstrip (rstrip s) = rstrip s.
Proof.
  induction s as [|c s IH]; [reflexivity|]. simpl.
  destruct (isspace c && negb (nonempty (rstrip s))) eqn:E; [reflexivity|].
  simpl. now rewrite IH, E.
Qed.

Lemma lstrip_rstrip_lstrip s : lstrip (rstrip (lstrip s)) = rstrip (lstrip s).
Proof.
  induction s as [|c s IH]; [reflexivity|]. simpl.
  destruct (isspace c) eqn:E; [exact IH|].
  simpl. rewrite E. simpl. now rewrite E.
Qed.

(** Stripping twice is stripping once. *)
Lemma strip_strip s : strip (strip s) = strip s.
Proof.
  unfold strip. now rewrite lstrip_rstrip_lstrip, rstrip_rstrip.
Qed.

(** ** More on the scenario parser *)

Lemma captures_fields md mo d o :
  captures md mo = Return (d, o) ->
  exists g g', d = Some (strip g) /\ o = Some (strip g').
Proof.
  unfold captures, group1_strip.
  destruct (group1 md) as [g|]; [|discriminate].
  destruct (group1 mo) as [g'|]; [|discriminate].
  intros [= <- <-]. eauto.
Qed.

Lemma extract_fields block d o :
  snd (extract block) = Return (Some d, Some o) ->
  strip d = d /\ strip o = o.
Proof.
  unfold extract.
  destruct (search dotall_ignorecase desc_v2 block) as [md|];
    destruct (search dotall_ignorecase outcome_v2 block) as [mo|]; simpl;
    try (destruct (search dotall_ignorecase desc_v1 block) as [md'|];
         destruct (search dotall_ignorecase outcome_v1 block) as [mo'|];
         simpl);
    try discriminate;
    intros (g & g' & [= ->] & [= ->])%captures_fields;
    now rewrite !strip_strip.
Qed.

(** The scenarios come from the blocks, at most one from each, and from
    nowhere else. *)
Lemma each_block_invariant (P : TestScenario -> Prop) blocks :
  forall scenarios l,
    (forall block d o,
       snd (extract block) = Return (Some d, Some o) ->
       nonempty d = true -> nonempty o = true ->
       P {| description := d; expected_outcome := o |}) ->
    Forall P scenarios ->
    each_block blocks scenarios = Return l ->
    Forall P l /\ length l <= length scenarios + length blocks.
Proof.
  induction blocks as [|block rest IH]; intros scenarios l HP Hacc; simpl.
  - intros [= <-]. split; [assumption|lia].
  - assert (Hskip : each_block rest scenarios = Return l ->
                    Forall P l /\ length l <= length scenarios + S (length rest)).
    { intros H. destruct (IH _ _ HP Hacc H). split; [assumption|lia]. }
    destruct (negb (nonempty (strip block))); [exact Hskip|].
    destruct (snd (extract block)) as [[[d|] [o|]]|e] eqn:E;
      try exact Hskip; [|discriminate].
    destruct (nonempty d && nonempty o) eqn:Hne; [|exact Hskip].
    apply andb_true_iff in Hne as [Hd Ho]. unfold validate. intros H.
    apply IH in H as [HF Hlen]; [|assumption|].
    + split; [assumption|]. rewrite length_app in Hlen. simpl in Hlen. lia.
    + apply Forall_app. split; [assumption|].
      constructor; [|constructor]. now apply (HP block).
Qed.

Lemma nonempty_true s : nonempty s = true -> s <> "".
Proof. now destruct s. Qed.

(** X2 (test_design_tools.py, lines 41-68). Every scenario that the
    parser returns has a description and an expected outcome that are
    not empty and carry no white space at either end. *)
Theorem generate_test_scenarios_fields_trimmed text scenarios :
  generate_test_scenarios text = Return scenarios ->
  Forall
    (fun scenario =>
       description scenario <> "" /\
       strip (description scenario) = description scenario /\
       expected_outcome scenario <> "" /\
       strip (expected_outcome scenario) = expected_outcome scenario)
    scenarios.
Proof.
  unfold generate_test_scenarios.
  destruct (each_block _ []) as [l|e] eqn:E; [|discriminate].
  apply each_block_invariant with (P := fun scenario =>
       description scenario <> "" /\
       strip (description scenario) = description scenario /\
       expected_outcome scenario <> "" /\
       strip (expected_outcome scenario) = expected_outcome scenario)
    in E as [HF _].
  - destruct l; [discriminate|]. now intros [= <-].
  - intros block d o Hx Hd Ho. simpl.
    destruct (extract_fields _ _ _ Hx) as [Hsd Hso].
    auto using nonempty_true.
  - constructor.
Qed.

Lemma generate_test_scenarios_fields_trimmed_witness :
  Forall
    (fun scenario =>
       description scenario <> "" /\
       strip (description scenario) = description scenario /\
       expected_outcome scenario <> "" /\
       strip (expected_outcome scenario) = expected_outcome scenario)
    [ {| description := "d"; expected_outcome := "x" |} ].
Proof.
  apply (generate_test_scenarios_fields_trimmed dashed_block).
  vm_compute. reflexivity.
Defined.

(** X3 (test_design_tools.py, lines 32-76). The parser returns at least
    one scenario and at most one for each block of the text. *)
Theorem generate_test_scenarios_count text scenarios :
  generate_test_scenarios text = Return scenarios ->
  1 <= length scenarios <= length (snd (scenario_blocks text)).
Proof.
  unfold generate_test_scenarios.
  destruct (each_block _ []) as [l|e] eqn:E; [|discriminate].
  apply each_block_invariant with (P := fun _ => True) in E as [_ Hlen];
    [|auto|constructor].
  destruct l; [discriminate|]. intros [= <-]. simpl in *. lia.
Qed.

Lemma generate_test_scenarios_count_witness :
  1 <= length
         [ {| description :=
                "adds two positives" +:+ LF +:+ "EXPECTED: returns their sum";
              expected_outcome := "returns their sum" |};
           {| description :=
                "handles zero" +:+ LF +:+ "EXPECTED: returns the other operand";
              expected_outcome := "returns the other operand" |} ]
  <= length (snd (scenario_blocks two_blocks)).
Proof.
  apply (generate_test_scenarios_count two_blocks).
  vm_compute. reflexivity.
Defined.

(** ** The matcher *)

Lemma eat_app ic p q s :
  eat ic (p +:+ q) s
  = match eat ic p s with Some s' => eat ic q s' | None => None end.
Proof.
  revert s. induction p as [|a p IH]; intros s; [reflexivity|].
  change (String a p +:+ q) with (String a (p +:+ q)).
  destruct s as [|b s]; simpl; [reflexivity|].
  destruct (eqc ic a b); [apply IH|reflexivity].
Qed.

Lemma eat_app_r ic p :
  forall s r t, eat ic p s = Some r -> eat ic p (s +:+ t) = Some (r +:+ t).
Proof.
  induction p as [|a p IH]; intros s r t; simpl.
  - now intros [= ->].
  - destruct s as [|b s]; [discriminate|].
    change (String b s +:+ t) with (String b (s +:+ t)). simpl.
    destruct (eqc ic a b); [apply IH|discriminate].
Qed.

Lemma any_suffix_cons P c s :
  any_suffix P (String c s) = P (String c s) || any_suffix P s.
Proof. reflexivity. Qed.

Lemma any_suffix_nil P : any_suffix P "" = P "".
Proof. simpl. apply orb_false_r. Qed.

Lemma any_suffix_mono (P Q : string -> bool) s :
  (forall t, P t = true -> Q t = true) ->
  any_suffix P s = true -> any_suffix Q s = true.
Proof.
  intros HPQ. induction s as [|c s IH].
  - rewrite !any_suffix_nil. apply HPQ.
  - rewrite !any_suffix_cons. intros [H|H]%orb_true_iff.
    + now rewrite (HPQ _ H).
    + rewrite (IH H). apply orb_true_r.
Qed.

Lemma any_suffix_here (P : string -> bool) s :
  P s = true -> any_suffix P s = true.
Proof.
  intros H. destruct s; [now rewrite any_suffix_nil|].
  now rewrite any_suffix_cons, H.
Qed.

Lemma any_suffix_app_r (P : string -> bool) pre s :
  any_suffix P s = true -> any_suffix P (pre +:+ s) = true.
Proof.
  intros H. induction pre as [|c pre IH]; [exact H|].
  change (String c pre +:+ s) with (String c (pre +:+ s)).
  rewrite any_suffix_cons, IH. apply orb_true_r.
Qed.

(** [search] finds nothing exactly when the pattern matches at no
    position. *)
Lemma search_from_none fl r s :
  forall pos,
    search_from fl r pos s = None <-> any_suffix (matches_at fl r) s = false.
Proof.
  induction s as [|c s IH]; intros pos.
  - rewrite any_suffix_nil. unfold matches_at. simpl.
    destruct (match_at fl r "") as [[n g]|]; split; congruence.
  - rewrite any_suffix_cons. unfold matches_at at 1. simpl.
    destruct (match_at fl r (String c s)) as [[n g]|]; simpl.
    + split; discriminate.
    + apply IH.
Qed.

Lemma search_some fl r s :
  any_suffix (matches_at fl r) s = true -> search fl r s <> None.
Proof.
  intros H Hnone. apply search_from_none in Hnone. congruence.
Qed.

Lemma search_none fl r s :
  any_suffix (matches_at fl r) s = false -> search fl r s = None.
Proof. apply search_from_none. Qed.

Lemma search_matches fl r s m :
  search fl r s = Some m -> any_suffix (matches_at fl r) s = true.
Proof.
  intros H. destruct (any_suffix (matches_at fl r) s) eqn:E; [reflexivity|].
  apply search_none in E. congruence.
Qed.

(** A repetition that may be empty goes on where what follows it goes
    on, and a repetition of any character gets to the end of the text. *)
Lemma rep_zero_some {R} ok greedy s (k : string -> option R) :
  k s <> None -> rep ok greedy 0 s k <> None.
Proof.
  intros Hk. destruct s as [|a s]; simpl.
  - now destruct greedy; destruct (k "").
  - destruct greedy.
    + destruct (ok a); [destruct (rep ok true 0 s k)|]; congruence.
    + now destruct (k (String a s)).
Qed.

Lemma rep_reaches_end {R} ok greedy s (k : string -> option R) :
  (forall a, ok a = true) -> k "" <> None -> rep ok greedy 0 s k <> None.
Proof.
  intros Hok Hk. induction s as [|a s IH]; simpl.
  - now destruct greedy; destruct (k "").
  - rewrite Hok. destruct greedy.
    + now destruct (rep ok true 0 s k).
    + destruct (k (String a s)); [discriminate|exact IH].
Qed.

Section RunEquations.
Context {R : Type}.
Variable fl : flags.
Implicit Types (k : string -> option string -> option R).

Lemma run_cat a b s g k :
  run fl (Cat a b) s g k = run fl a s g (fun s' g' => run fl b s' g' k).
Proof. reflexivity. Qed.

Lemma run_alt a b s g k :
  run fl (Alt a b) s g k
  = match run fl a s g k with Some x => Some x | None => run fl b s g k end.
Proof. reflexivity. Qed.

Lemma run_eos s g k : run fl Eos s g k = if at_end s then k s g else None.
Proof. reflexivity. Qed.

Lemma run_rep c least greedy s g k :
  run fl (Rep c least greedy) s g k
  = rep (in_cls fl c) greedy least s (fun s' => k s' g).
Proof. reflexivity. Qed.

Lemma run_lit p s s' g k :
  eat (IGNORECASE fl) p s = Some s' -> run fl (Lit p) s g k = k s' g.
Proof. intros H. simpl. now rewrite H. Qed.

Lemma run_lit_none p s g k :
  eat (IGNORECASE fl) p s = None -> run fl (Lit p) s g k = None.
Proof. intros H. simpl. now rewrite H. Qed.

Lemma run_lit_some p s g k :
  run fl (Lit p) s g k <> None -> eat (IGNORECASE fl) p s <> None.
Proof. simpl. now destruct (eat (IGNORECASE fl) p s). Qed.

Lemma run_lit_inv p s g k :
  run fl (Lit p) s g k <> None ->
  exists s', eat (IGNORECASE fl) p s = Some s' /\ k s' g <> None.
Proof. simpl. destruct (eat (IGNORECASE fl) p s); [eauto|congruence]. Qed.

Lemma run_alt_some a b s g k :
  run fl a s g k <> None \/ run fl b s g k <> None ->
  run fl (Alt a b) s g k <> None.
Proof. simpl. destruct (run fl a s g k); [discriminate|tauto]. Qed.

Lemma run_alt_inv a b s g k :
  run fl (Alt a b) s g k <> None ->
  run fl a s g k <> None \/ run fl b s g k <> None.
Proof. simpl. destruct (run fl a s g k); [left; discriminate|tauto]. Qed.

Lemma run_rep_zero c greedy s g k :
  k s g <> None -> run fl (Rep c 0 greedy) s g k <> None.
Proof. intros H. simpl. now apply rep_zero_some. Qed.

Lemma run_dot_to_end greedy s g k :
  DOTALL fl = true -> k "" g <> None ->
  run fl (Rep Dot 0 greedy) s g k <> None.
Proof.
  intros Hdot H. simpl. apply rep_reaches_end; [|exact H].
  intros a. simpl. now rewrite Hdot.
Qed.

Lemma run_grp r s g k :
  run fl (Grp r) s g k
  = run fl r s g
      (fun s' _ =>
         k s' (Some (String.substring 0 (String.length s - String.length s') s))).
Proof. reflexivity. Qed.
End RunEquations.

Lemma matches_at_true fl r s :
  match_at fl r s <> None -> matches_at fl r s = true.
Proof. unfold matches_at. now destruct (match_at fl r s). Qed.

Lemma matches_at_inv fl r s :
  matches_at fl r s = true -> match_at fl r s <> None.
Proof. unfold matches_at. now destruct (match_at fl r s). Qed.

(** After a label and its colon the first primary pattern always finds
    an end for the description, the end of the block if nothing else. *)
Lemma desc_v2_after_label t t1 t2 :
  eat true "Description" t = Some t1 \/ eat true "SCENARIO" t = Some t1 ->
  eat true ":" t1 = Some t2 ->
  matches_at dotall_ignorecase desc_v2 t = true.
Proof.
  intros Hlabel Hcolon. apply matches_at_true.
  unfold match_at, desc_v2. rewrite run_cat. apply run_alt_some.
  assert (Hrest : forall g,
            run dotall_ignorecase
              (Lit ":" +> Rep Space 0 true +> Grp (Rep Dot 0 false)
               +> (Lit LF +> Rep Space 0 true +> Lit "-" +> Rep Space 0 true
                   +> (Lit "Inputs" ||| Lit "Expected Outcome"
                       ||| Lit "EXPECTED")
                   +> Lit ":"
                   ||| Eos))%re
              t1 g
              (fun s' g' =>
                 Some (String.length t - String.length s', g'))
            <> None).
  { intros g. rewrite run_cat, (run_lit dotall_ignorecase _ _ _ _ _ Hcolon), run_cat.
    apply run_rep_zero. rewrite run_cat, run_grp.
    apply run_dot_to_end; [reflexivity|].
    apply run_alt_some. right. simpl. discriminate. }
  destruct Hlabel as [H|H]; [left|right];
    rewrite (run_lit dotall_ignorecase _ _ _ _ _ H); apply Hrest.
Qed.

(** Where the text EXPECTED and a colon stand, the second primary
    pattern matches. *)
Lemma outcome_v2_after_label t t1 :
  eat true "EXPECTED:" t = Some t1 ->
  matches_at dotall_ignorecase outcome_v2 t = true.
Proof.
  intros Hlabel. apply matches_at_true.
  unfold match_at, outcome_v2. apply run_alt_some. right.
  rewrite run_cat, (run_lit dotall_ignorecase _ _ _ _ _ Hlabel), run_cat.
  apply run_rep_zero. rewrite run_grp.
  apply run_dot_to_end; [reflexivity|discriminate].
Qed.

Lemma desc_v1_label t :
  matches_at dotall_ignorecase desc_v1 t = true ->
  eat true "SCENARIO:" t <> None.
Proof.
  intros H%matches_at_inv. unfold match_at, desc_v1 in H.
  rewrite run_cat in H. now apply run_lit_some in H.
Qed.

Lemma outcome_v1_label t :
  matches_at dotall_ignorecase outcome_v1 t = true ->
  eat true "EXPECTED:" t <> None.
Proof.
  intros H%matches_at_inv. unfold match_at, outcome_v1 in H.
  rewrite run_cat in H. now apply run_lit_some in H.
Qed.

(** Where a legacy pattern matches, the primary pattern for the same
    field matches too. *)
Lemma desc_v1_implies_v2 block m :
  search dotall_ignorecase desc_v1 block = Some m ->
  search dotall_ignorecase desc_v2 block <> None.
Proof.
  intros H%search_matches. apply search_some. revert H.
  apply any_suffix_mono. intros t Ht%desc_v1_label.
  change "SCENARIO:" with ("SCENARIO" +:+ ":") in Ht.
  rewrite eat_app in Ht.
  destruct (eat true "SCENARIO" t) as [t1|] eqn:E1; [|congruence].
  destruct (eat true ":" t1) as [t2|] eqn:E2; [|congruence].
  eapply desc_v2_after_label; eauto.
Qed.

Lemma outcome_v1_implies_v2 block m :
  search dotall_ignorecase outcome_v1 block = Some m ->
  search dotall_ignorecase outcome_v2 block <> None.
Proof.
  intros H%search_matches. apply search_some. revert H.
  apply any_suffix_mono. intros t Ht%outcome_v1_label.
  destruct (eat true "EXPECTED:" t) as [t1|] eqn:E1; [|congruence].
  eapply outcome_v2_after_label; eauto.
Qed.

(** Where a primary search finds nothing, the legacy patterns do not
    both match: the branch that tries them ends with no field set. *)
Lemma legacy_patterns_imply_primary block :
  search dotall_ignorecase desc_v2 block = None
  \/ search dotall_ignorecase outcome_v2 block = None ->
  extract block
  = ([DescV2; OutcomeV2; DescV1; OutcomeV1], Return (None, None)).
Proof.
  intros Hprimary. unfold extract.
  destruct (search dotall_ignorecase desc_v1 block) as [md|] eqn:Ed;
    destruct (search dotall_ignorecase outcome_v1 block) as [mo|] eqn:Eo.
  - apply desc_v1_implies_v2 in Ed. apply outcome_v1_implies_v2 in Eo.
    destruct Hprimary; congruence.
  - destruct Hprimary as [-> | ->]; [reflexivity|].
    now destruct (search dotall_ignorecase desc_v2 block).
  - destruct Hprimary as [-> | ->]; [reflexivity|].
    now destruct (search dotall_ignorecase desc_v2 block).
  - destruct Hprimary as [-> | ->]; [reflexivity|].
    now destruct (search dotall_ignorecase desc_v2 block).
Qed.

(** X4 (test_design_tools.py, lines 46-58). The legacy branch yields no
    scenario: whenever a primary search finds nothing, so that the
    legacy patterns are tried, one of the legacy searches finds nothing
    either, and the block gives neither a description nor an expected
    outcome, and no exception. *)
Theorem extract_legacy_branch_yields_nothing block :
  search dotall_ignorecase desc_v2 block = None
  \/ search dotall_ignorecase outcome_v2 block = None ->
  (search dotall_ignorecase desc_v1 block = None
   \/ search dotall_ignorecase outcome_v1 block = None)
  /\ extract block
     = ([DescV2; OutcomeV2; DescV1; OutcomeV1], Return (None, None)).
Proof.
  intros Hprimary. split; [|now apply legacy_patterns_imply_primary].
  destruct Hprimary as [H|H].
  - left. destruct (search dotall_ignorecase desc_v1 block) eqn:E;
      [|reflexivity].
    now apply desc_v1_implies_v2 in E.
  - right. destruct (search dotall_ignorecase outcome_v1 block) eqn:E;
      [|reflexivity].
    now apply outcome_v1_implies_v2 in E.
Qed.

Lemma extract_legacy_branch_yields_nothing_witness :
  (search dotall_ignorecase desc_v1 "SCENARIO: only a title" = None
   \/ search dotall_ignorecase outcome_v1 "SCENARIO: only a title" = None)
  /\ extract "SCENARIO: only a title"
     = ([DescV2; OutcomeV2; DescV1; OutcomeV1], Return (None, None)).
Proof.
  apply extract_legacy_branch_yields_nothing.
  right. vm_compute. reflexivity.
Defined.

(** ** Texts without a label *)

Lemma infix_of_refl s : infix_of s s.
Proof. exists "", "". now rewrite append_nil_r. Qed.

Lemma infix_of_app_l t pre s : infix_of t s -> infix_of t (pre +:+ s).
Proof.
  intros (a & b & ->). exists (pre +:+ a), b. now rewrite append_assoc.
Qed.

Lemma infix_of_app_r t s post : infix_of t s -> infix_of t (s +:+ post).
Proof.
  intros (a & b & ->). exists a, (b +:+ post).
  now rewrite !append_assoc.
Qed.

Lemma infix_of_trans t s u : infix_of t s -> infix_of s u -> infix_of t u.
Proof.
  intros H (a & b & ->). now apply infix_of_app_l, infix_of_app_r.
Qed.

Lemma rev_app_rev s1 :
  forall s2, String.rev_app s1 s2 = String.rev s1 +:+ s2.
Proof.
  induction s1 as [|a s1 IH]; intros s2; [reflexivity|].
  unfold String.rev. simpl. now rewrite (IH (String a s2)), (IH (String a "")),
    append_assoc.
Qed.

Lemma rev_cons c s : String.rev (String c s) = String.rev s +:+ String c "".
Proof. unfold String.rev at 1. simpl. apply rev_app_rev. Qed.

(** The pieces of a split are stretches of the text. *)
Lemma split_scan_infix hit s :
  forall skip cur piece,
    skip = 0 \/ cur = "" ->
    In piece (split_scan hit skip cur s) ->
    infix_of piece (String.rev cur +:+ s).
Proof.
  induction s as [|c s IH]; intros skip cur piece Hinv; simpl.
  - intros [<-|[]]. apply infix_of_app_r, infix_of_refl.
  - destruct skip as [|n].
    + destruct (hit (String c s)) as [[|n]|].
      * intros H. apply IH in H; [|now left].
        rewrite rev_cons, append_assoc in H. exact H.
      * intros [<-|H].
        -- apply infix_of_app_r, infix_of_refl.
        -- apply IH in H; [|now right].
           apply infix_of_app_l. apply (infix_of_app_l _ (String c "")). exact H.
      * intros H. apply IH in H; [|now left].
        rewrite rev_cons, append_assoc in H. exact H.
    + destruct Hinv as [Hinv| ->]; [discriminate|].
      intros H. apply IH in H; [|now right].
      apply (infix_of_app_l _ (String c "")). exact H.
Qed.

Lemma lstrip_infix s : infix_of (lstrip s) s.
Proof.
  induction s as [|c s IH]; [apply infix_of_refl|]. simpl.
  destruct (isspace c); [|apply infix_of_refl].
  apply (infix_of_app_l _ (String c "")). exact IH.
Qed.

Lemma rstrip_prefix s : exists post, s = rstrip s +:+ post.
Proof.
  induction s as [|c s [post IH]]; [now exists ""|]. simpl.
  destruct (isspace c && negb (nonempty (rstrip s))).
  - now exists (String c s).
  - exists post. change (String c (rstrip s) +:+ post)
      with (String c (rstrip s +:+ post)). now rewrite <- IH.
Qed.

Lemma strip_infix s : infix_of (strip s) s.
Proof.
  unfold strip. apply infix_of_trans with (lstrip s); [|apply lstrip_infix].
  destruct (rstrip_prefix (lstrip s)) as [post H].
  exists "", post. exact H.
Qed.

(** Each block is a stretch of the text that was given. *)
Lemma scenario_blocks_infix text block :
  In block (snd (scenario_blocks text)) -> infix_of block text.
Proof.
  unfold scenario_blocks.
  destruct (length (PyStr.split "---" (strip text)) <? 2)%nat; simpl.
  - unfold Re.split. intros H.
    apply split_scan_infix in H; [exact H|now left].
  - unfold PyStr.split. intros H.
    apply split_scan_infix in H; [|now left].
    eapply infix_of_trans; [exact H|apply strip_infix].
Qed.

Lemma any_suffix_app_l (P : string -> bool) s post :
  (forall u, P u = true -> P (u +:+ post) = true) ->
  any_suffix P s = true -> any_suffix P (s +:+ post) = true.
Proof.
  intros HP. induction s as [|c s IH].
  - rewrite any_suffix_nil. intros H. apply any_suffix_here.
    now apply (HP "").
  - rewrite any_suffix_cons. intros [H|H]%orb_true_iff.
    + apply any_suffix_here. now apply HP.
    + change (String c s +:+ post) with (String c (s +:+ post)).
      rewrite any_suffix_cons, (IH H). apply orb_true_r.
Qed.

Lemma any_suffix_orb (P Q : string -> bool) s :
  any_suffix (fun t => P t || Q t) s = any_suffix P s || any_suffix Q s.
Proof.
  induction s as [|c s IH].
  - now rewrite !any_suffix_nil.
  - rewrite !any_suffix_cons, IH.
    destruct (P (String c s)), (Q (String c s)), (any_suffix P s),
      (any_suffix Q s); reflexivity.
Qed.

Lemma ihead_app_r p u post : ihead p u = true -> ihead p (u +:+ post) = true.
Proof.
  unfold ihead. destruct (eat true p u) as [r|] eqn:E; [|discriminate].
  now rewrite (eat_app_r _ _ _ _ post E).
Qed.

(** A label that occurs in a stretch of a text occurs in the text. *)
Lemma icontains_infix p t s :
  infix_of t s -> icontains p t = true -> icontains p s = true.
Proof.
  intros (pre & post & ->) H. unfold icontains.
  apply any_suffix_app_r, any_suffix_app_l;
    [intros u; apply ihead_app_r|exact H].
Qed.

Lemma desc_v2_label t :
  matches_at dotall_ignorecase desc_v2 t = true ->
  ihead "Description:" t || ihead "SCENARIO:" t = true.
Proof.
  intros H%matches_at_inv. unfold match_at, desc_v2 in H.
  rewrite run_cat in H. apply run_alt_inv in H. unfold ihead.
  change "Description:" with ("Description" +:+ ":").
  change "SCENARIO:" with ("SCENARIO" +:+ ":").
  rewrite !eat_app.
  destruct H as [H|H]; apply run_lit_inv in H as (t1 & E & H);
    rewrite run_cat in H; apply run_lit_some in H; simpl IGNORECASE in E, H;
    rewrite E; destruct (eat true ":" t1); try congruence;
    [reflexivity|apply orb_true_r].
Qed.

Lemma search_desc_v2_none block :
  icontains "Description:" block = false ->
  icontains "SCENARIO:" block = false ->
  search dotall_ignorecase desc_v2 block = None.
Proof.
  intros HD HS. apply search_none.
  destruct (any_suffix _ block) eqn:E; [|reflexivity].
  apply (any_suffix_mono _ _ _ desc_v2_label) in E.
  rewrite any_suffix_orb in E. unfold icontains in HD, HS.
  rewrite HD, HS in E. discriminate.
Qed.

Lemma each_block_all_skipped blocks :
  forall scenarios,
    (forall block, In block blocks ->
                   snd (extract block) = Return (None, None)) ->
    each_block blocks scenarios = Return scenarios.
Proof.
  induction blocks as [|block rest IH]; intros scenarios H; [reflexivity|].
  simpl. destruct (negb (nonempty (strip block))).
  - apply IH. intros b Hb. apply H. now right.
  - rewrite (H block) by now left. apply IH. intros b Hb. apply H. now right.
Qed.



(** ** More on state initialisation *)

(** X7 (coordinator.py, lines 37-62). The structured request: when the
    text decodes to an object with the key [source_code], the state
    takes the source code from the object, whatever value it is, and the
    language from the object too, or python when the object names none;
    the four defaults follow as for raw text, and nothing is raised. *)
Theorem initialize_state_request
    (json_loads : string -> result Value) (ctx : CallbackContext)
    (raw_text : string) (initial_data : list (string * Value))
    (source_code : Value) :
  guarded_text ctx = Some raw_text ->
  json_loads raw_text = Return (VDict initial_data) ->
  dict_get "source_code" initial_data = Some source_code ->
  let st := fst (initialize_state json_loads ctx) in
  st !! "source_code" = Some source_code /\
  st !! "language"
  = Some (default (VStr "python") (dict_get "language" initial_data)) /\
  defaults_seeded st /\
  snd (initialize_state json_loads ctx) = None.
Proof.
  intros Htext Hjson Hsource. unfold initialize_state, from_json, dict_mem.
  rewrite Htext, Hjson, Hsource. cbv zeta. simpl negb. cbv iota.
  simpl fst. simpl snd.
  unfold defaults_seeded. simpl default at 1.
  repeat split; by simplify_map_eq.
Qed.

Lemma initialize_state_request_witness :
  let st := fst (initialize_state (loads sys_default) resumed_request) in
  st !! "source_code" = Some (VStr "x = 1") /\
  st !! "language" = Some (VStr "python") /\
  defaults_seeded st /\
  snd (initialize_state (loads sys_default) resumed_request) = None.
Proof.
  apply (initialize_state_request (loads sys_default) resumed_request
           bare_request [("source_code", VStr "x = 1")] (VStr "x = 1"));
    vm_compute; reflexivity.
Defined.

(** X8 (coordinator.py, lines 24-62). Initialisation writes seven keys
    at most: any other key of the session keeps its value, also when
    an exception ends the initialisation. *)
Theorem initialize_state_frame
    (json_loads : string -> result Value) (ctx : CallbackContext)
    (key : string) :
  ~ In key
      ["source_code"; "language"; "test_results"; "static_analysis_report";
       "test_scenarios"; "generated_test_code"; "initialization_error"] ->
  fst (initialize_state json_loads ctx) !! key = state ctx !! key.
Proof.
  intros Hkey. simpl in Hkey.
  assert (Hne : forall k, In k
      ["source_code"; "language"; "test_results"; "static_analysis_report";
       "test_scenarios"; "generated_test_code"; "initialization_error"] ->
      k <> key).
  { intros k Hk ->. now apply Hkey. }
  unfold initialize_state.
  destruct (guarded_text ctx) as [raw_text|].
  - assert (Hjson : forall st is_json,
              from_json json_loads raw_text (state ctx)
              = Return (st, is_json) ->
              st !! key = state ctx !! key).
    { unfold from_json. intros st is_json.
      destruct (json_loads raw_text) as [[| | | | |d]|[msg|msg| |msg]];
        try (intros [= <- _]; reflexivity); try discriminate.
      destruct (dict_mem "source_code" d); intros [= <- _]; [|reflexivity].
      rewrite !lookup_insert_ne; [reflexivity|apply Hne; simpl; tauto..]. }
    destruct (from_json json_loads raw_text (state ctx))
      as [[st is_json]|e]; [|reflexivity].
    specialize (Hjson st is_json eq_refl).
    destruct is_json; simpl;
      rewrite !lookup_insert_ne; try exact Hjson; apply Hne; simpl; tauto.
  - simpl. rewrite lookup_insert_ne; [reflexivity|apply Hne; simpl; tauto].
Qed.

Lemma initialize_state_frame_witness :
  fst (initialize_state (loads sys_default) resumed_request) !! "user_name"
  = Some (VStr "ada").
Proof.
  rewrite (initialize_state_frame (loads sys_default) resumed_request
             "user_name").
  - reflexivity.
  - simpl. intros [H|[H|[H|[H|[H|[H|[H|[]]]]]]]]; discriminate.
Defined.

(** X22 (coordinator.py, lines 39-49). The handler of line 47 catches
    [json.JSONDecodeError] and nothing else: any other exception of
    [json.loads], such as the [ValueError] of an integer with too many
    digits or the [RecursionError] of a deep nesting, ends the
    initialisation, and the state is as it was, without source code,
    defaults or error record. *)
Theorem initialize_state_uncaught
    (json_loads : string -> result Value) (ctx : CallbackContext)
    (raw_text : string) (e : exn) :
  guarded_text ctx = Some raw_text ->
  json_loads raw_text = Raise e ->
  e <> JSONDecodeError ->
  initialize_state json_loads ctx = (state ctx, Some e).
Proof.
  intros Htext Hloads Hne. unfold initialize_state, from_json.
  rewrite Htext, Hloads. now destruct e.
Qed.

Lemma initialize_state_uncaught_witness :
  initialize_state (loads sys_default)
    {| user_content :=
         Some {| parts := Some [ {| text := Some ("[" +:+ nines 4301) |} ] |};
       state := {[ "user_name" := VStr "ada" ]} |}
  = ({[ "user_name" := VStr "ada" ]},
     Some (ValueError
             "Exceeds the limit (4300 digits) for integer string conversion: value has 4301 digits; use sys.set_int_max_str_digits() to increase the limit")).
Proof.
  refine (initialize_state_uncaught (loads sys_default)
            {| user_content :=
                 Some {| parts :=
                           Some [ {| text := Some ("[" +:+ nines 4301) |} ] |};
               state := {[ "user_name" := VStr "ada" ]} |}
            ("[" +:+ nines 4301)
            (ValueError
               "Exceeds the limit (4300 digits) for integer string conversion: value has 4301 digits; use sys.set_int_max_str_digits() to increase the limit")
            _ _ _).
  - reflexivity.
  - vm_compute. reflexivity.
  - discriminate.
Defined.

(** ** The request of main.py *)

Lemma scan_dumps_char c t :
  scanstring (dumps_char c +:+ t)
  = match scanstring t with
    | Some (u, r) => Some (String c u, r)
    | None => None
    end.
Proof. destruct c as [[] [] [] [] [] [] [] []]; reflexivity. Qed.

Lemma scan_dumps_body s rest :
  scanstring (dumps_body s +:+ String quote rest) = Some (s, rest).
Proof.
  induction s as [|c s IH]; [reflexivity|].
  change (dumps_body (String c s)) with (dumps_char c +:+ dumps_body s).
  now rewrite append_assoc, scan_dumps_char, IH.
Qed.

Lemma value_dumps_str sys fuel room s rest :
  value sys (S fuel) room (dumps_str s +:+ rest) = Return (VStr s, rest).
Proof.
  unfold dumps_str.
  change (String quote (dumps_body s +:+ String quote "") +:+ rest)
    with (String quote ((dumps_body s +:+ String quote "") +:+ rest)).
  rewrite append_assoc. simpl.
  change (String quote "" +:+ rest) with (String quote rest).
  now rewrite scan_dumps_body.
Qed.

(** [json.loads] gives back the string that [json.dumps] wrote, whatever
    the limits of the interpreter. *)
Lemma loads_dumps_str sys s : loads sys (dumps_str s) = Return (VStr s).
Proof.
  unfold loads. change (skip_ws (dumps_str s)) with (dumps_str s).
  rewrite <- (append_nil_r (dumps_str s)) at 3.
  now rewrite value_dumps_str.
Qed.

Lemma value_object sys fuel room s s1 :
  skip_ws s = String quote s1 ->
  value sys (S fuel) (S room) (String "{" s)
  = members sys fuel room (String quote s1) [].
Proof. intros H. simpl. now rewrite H. Qed.

(** One member of an object, its key written by [json.dumps]. *)
Lemma members_pair sys fuel room key tail acc :
  members sys (S fuel) room (dumps_str key +:+ tail) acc
  = match skip_ws tail with
    | String ":" s3 =>
        match value sys fuel room (skip_ws s3) with
        | Return (v, s4) =>
            match skip_ws s4 with
            | String "," s5 =>
                members sys fuel room (skip_ws s5) (dict_set key v acc)
            | String "}" s5 => Return (VDict (dict_set key v acc), s5)
            | _ => errmsg room
            end
        | Raise e => Raise e
        end
    | _ => errmsg room
    end.
Proof.
  unfold dumps_str.
  change (String quote (dumps_body key +:+ String quote "") +:+ tail)
    with (String quote ((dumps_body key +:+ String quote "") +:+ tail)).
  rewrite append_assoc.
  change (String quote "" +:+ tail) with (String quote tail).
  simpl. now rewrite scan_dumps_body.
Qed.

Lemma loads_initial_request sys src :
  loads sys (initial_request src)
  = Return (VDict [("source_code", VStr src); ("language", VStr "python")]).
Proof.
  unfold loads.
  assert (Hlen : exists fuel,
            String.length (initial_request src) = S (S (S fuel)))
    by (eexists; reflexivity).
  destruct Hlen as [fuel ->].
  change (S (S (S fuel)) + S (S (S fuel)))
    with (S (S (S (fuel + S (S (S fuel)))))).
  change (3 + recursion_spare sys) with (S (2 + recursion_spare sys)).
  unfold initial_request.
  set (tail2 := ", " +:+ dumps_str "language" +:+ ": " +:+ dumps_str "python" +:+ "}").
  set (tail1 := ": " +:+ dumps_str src +:+ tail2).
  change (skip_ws ("{" +:+ dumps_str "source_code" +:+ tail1))
    with (String "{" (dumps_str "source_code" +:+ tail1)).
  rewrite (value_object _ _ _ _ (dumps_body "source_code" +:+ String quote "" +:+ tail1))
    by reflexivity.
  change (String quote (dumps_body "source_code" +:+ String quote "" +:+ tail1))
    with (dumps_str "source_code" +:+ tail1).
  rewrite members_pair.
  change (skip_ws tail1) with (String ":" (String " " (dumps_str src +:+ tail2))).
  cbv iota beta.
  change (skip_ws (String " " (dumps_str src +:+ tail2)))
    with (dumps_str src +:+ tail2).
  rewrite value_dumps_str.
  change (skip_ws tail2)
    with (String "," (String " " (dumps_str "language" +:+ ": "
                                   +:+ dumps_str "python" +:+ "}"))).
  cbv iota beta.
  change (skip_ws (String " " (dumps_str "language" +:+ ": "
                                +:+ dumps_str "python" +:+ "}")))
    with (dumps_str "language" +:+ ": " +:+ dumps_str "python" +:+ "}").
  rewrite members_pair.
  change (skip_ws (": " +:+ dumps_str "python" +:+ "}"))
    with (String ":" (String " " (dumps_str "python" +:+ "}"))).
  cbv iota beta.
  change (skip_ws (String " " (dumps_str "python" +:+ "}")))
    with (dumps_str "python" +:+ "}").
  rewrite value_dumps_str. reflexivity.
Qed.


(** ** More on the refinement loop *)

Section RefinementLoopRuns.
Variable runner_reply : nat -> gmap string Value -> Value.
Variable debugger_fix : nat -> gmap string Value -> string.
Variable debugger_else : nat -> gmap string Value -> Turn.

Lemma is_pass_after_debugger st code :
  is_pass (<["generated_test_code" := VStr code]> st) = is_pass st.
Proof. unfold is_pass, status. now rewrite lookup_insert_ne. Qed.

(** An iteration that lets the loop go on: the Runner did not report
    PASS, and the Debugger wrote test code after the run. *)
Lemma body_continue i st st' :
  iteration_body runner_reply debugger_fix debugger_else i st
  = (st', Continue) ->
  is_pass (test_runner_agent runner_reply i st) = false /\
  exists code,
    st' = <["generated_test_code" := VStr code]>
            (test_runner_agent runner_reply i st).
Proof.
  unfold iteration_body, debugger_and_refiner_agent, debugger_turn.
  destruct (is_pass (test_runner_agent runner_reply i st)); [discriminate|].
  destruct (is_fail _); [intros [= <-]; eauto|].
  destruct (debugger_else _ _); [discriminate|intros [= <-]; eauto].
Qed.

(** An iteration touches two keys only. *)
Lemma body_frame i st key :
  key <> "test_results" -> key <> "generated_test_code" ->
  fst (iteration_body runner_reply debugger_fix debugger_else i st) !! key
  = st !! key.
Proof.
  intros Hr Hc.
  unfold iteration_body, debugger_and_refiner_agent, test_runner_agent.
  destruct (debugger_turn _ _ _ _); simpl;
    now rewrite ?lookup_insert_ne by congruence.
Qed.

Lemma step_frame l key :
  key <> "test_results" -> key <> "generated_test_code" ->
  shared (Coordinator.step runner_reply debugger_fix debugger_else l) !! key
  = shared l !! key.
Proof.
  intros Hr Hc. unfold Coordinator.step. destruct (phase l); try reflexivity.
  destruct (max_iterations <=? times_looped l)%nat; [reflexivity|].
  pose proof (body_frame (times_looped l) (shared l) key Hr Hc) as H.
  now destruct (iteration_body _ _ _ _ _).
Qed.

(** X12 (coordinator.py, lines 124-125; coordinator.py, lines 148-148;
    coordinator.py, lines 166-174). The loop writes [test_results] and
    [generated_test_code] and no other key: the source code, the
    language, the analysis report and the scenarios leave the loop as
    they entered it, whatever the stages answer. *)
Theorem refinement_loop_frame st key :
  key <> "test_results" -> key <> "generated_test_code" ->
  shared (refinement_loop runner_reply debugger_fix debugger_else st) !! key
  = st !! key.
Proof.
  intros Hr Hc. unfold refinement_loop. generalize (S max_iterations).
  intros n. induction n as [|n IH]; [reflexivity|].
  simpl. now rewrite step_frame.
Qed.

(** The rounds made so far, whatever the stages answer: the stages run
    are the Runner and the Debugger in turn, once for each iteration
    counted. *)
Lemma iter_step_rounds n st :
  let l :=
    Nat.iter n (Coordinator.step runner_reply debugger_fix debugger_else)
      (enter st) in
  ran l = flat_map (fun _ => [Runner; Debugger]) (seq 0 (times_looped l)) /\
  (1 <= n -> 1 <= times_looped l).
Proof.
  induction n as [|n [IHran IHone]]; [split; [reflexivity|lia]|].
  cbv zeta. change (Nat.iter (S n) ?f ?x) with (f (Nat.iter n f x)).
  set (l := Nat.iter n _ (enter st)) in *.
  pose proof (iter_step_progress runner_reply debugger_fix debugger_else n st)
    as [Hrun _]. fold l in Hrun.
  unfold Coordinator.step. destruct (phase l) eqn:Hp.
  - specialize (Hrun eq_refl).
    destruct (Nat.leb_spec max_iterations (times_looped l)).
    + simpl. split; [exact IHran|]. intros _. unfold max_iterations in *. lia.
    + destruct (iteration_body _ _ _ _ _). cbn [ran times_looped].
      split; [|lia]. now rewrite IHran, seq_S, flat_map_app.
  - split; [exact IHran|]. intros _.
    destruct n; [discriminate|apply IHone; lia].
  - split; [exact IHran|]. intros _.
    destruct n; [discriminate|apply IHone; lia].
Qed.

(** X13 (coordinator.py, lines 166-174). Whatever the stages answer, the
    loop ends in one of its two terminal states after at least one and
    at most three iterations, each of them the Runner followed by the
    Debugger. *)
Theorem refinement_loop_rounds st :
  let l := refinement_loop runner_reply debugger_fix debugger_else st in
  (phase l = TERMINATED_EARLY \/ phase l = TERMINATED_BY_LIMIT) /\
  1 <= times_looped l <= max_iterations /\
  ran l = flat_map (fun _ => [Runner; Debugger]) (seq 0 (times_looped l)).
Proof.
  cbv zeta.
  destruct (refinement_loop_stops runner_reply debugger_fix debugger_else st)
    as [Hstop Hmax].
  destruct (iter_step_rounds (S max_iterations) st) as [Hran Hone].
  fold (refinement_loop runner_reply debugger_fix debugger_else st)
    in Hran, Hone.
  repeat split; try assumption.
  - destruct (phase _); [congruence|now left|now right].
  - apply Hone. lia.
Qed.

Lemma iter_stopped n l :
  phase l <> RUNNING ->
  Nat.iter n (Coordinator.step runner_reply debugger_fix debugger_else) l = l.
Proof.
  intros H. induction n as [|n IH]; [reflexivity|].
  simpl. rewrite IH. now apply step_stopped.
Qed.

(** While the Runner reports FAIL, for the first [n] iterations. *)
Lemma iter_fail_prefix st n m :
  (forall i s, i < n -> status_of (runner_reply i s) = Some "FAIL") ->
  m <= n -> m <= max_iterations ->
  let l :=
    Nat.iter m (Coordinator.step runner_reply debugger_fix debugger_else)
      (enter st) in
  phase l = RUNNING /\ times_looped l = m /\
  (is_Some (st !! "generated_test_code") ->
   is_Some (shared l !! "generated_test_code")).
Proof.
  intros Hfail. induction m as [|m IH]; intros Hn Hmax; [now simpl|].
  destruct IH as (Hp & Ht & Hcode); [lia..|].
  cbv zeta. change (Nat.iter (S m) ?f ?x) with (f (Nat.iter m f x)).
  rewrite step_on_fail; [|assumption|lia|apply Hfail; lia].
  simpl. repeat split; [now rewrite Ht|].
  intros _. rewrite lookup_insert_eq. eauto.
Qed.

(** X14 (coordinator.py, lines 130-147; coordinator.py, lines 166-174;
    coordinator.py, lines 177-188). The first PASS ends the loop: when
    the Runner reports FAIL in the first [n] iterations and PASS in the
    next, with [n] below the ceiling, the loop ends early after [n + 1]
    iterations, on a state whose status is PASS, and the final reporter
    then answers with the python block of the test code alone. *)
Theorem refinement_loop_exits_on_pass
    (render : Value -> string) (message : gmap string Value -> string)
    st n :
  n < max_iterations ->
  (forall i s, i < n -> status_of (runner_reply i s) = Some "FAIL") ->
  (forall s, status_of (runner_reply n s) = Some "PASS") ->
  is_Some (st !! "generated_test_code") ->
  let l := refinement_loop runner_reply debugger_fix debugger_else st in
  phase l = TERMINATED_EARLY /\
  times_looped l = S n /\
  status (shared l) = Some "PASS" /\
  exists code,
    shared l !! "generated_test_code" = Some code /\
    result_summarizer_agent render message (shared l)
    = Some (fenced "python" (rewrite_imports (shown render code))).
Proof.
  intros Hn Hfail Hpass Hentry. cbv zeta. unfold refinement_loop.
  replace (S max_iterations) with ((max_iterations - n) + S n) by lia.
  rewrite Nat.iter_add.
  change (Nat.iter (S n) ?f ?x) with (f (Nat.iter n f x)).
  destruct (iter_fail_prefix st n n Hfail (le_n _)) as (Hp & Ht & Hcode);
    [lia|].
  set (l := Nat.iter n _ (enter st)) in *.
  rewrite (step_on_pass _ _ _ l); [|assumption|lia|rewrite Ht; apply Hpass].
  rewrite iter_stopped by (simpl; discriminate). simpl.
  assert (Hstatus : status (test_runner_agent runner_reply (times_looped l)
                              (shared l)) = Some "PASS").
  { rewrite status_after_runner, Ht. apply Hpass. }
  repeat split; [now rewrite Ht|exact Hstatus|].
  destruct (Hcode Hentry) as [code Hc]. exists code.
  assert (Hc' : test_runner_agent runner_reply (times_looped l) (shared l)
                !! "generated_test_code" = Some code).
  { unfold test_runner_agent. now rewrite lookup_insert_ne. }
  split; [exact Hc'|].
  unfold result_summarizer_agent. rewrite Hc'.
  unfold test_runner_agent at 1. rewrite lookup_insert_eq.
  now rewrite (proj2 (is_pass_iff _) Hstatus).
Qed.

Lemma no_limit_before st n :
  n <= max_iterations ->
  phase (Nat.iter n (Coordinator.step runner_reply debugger_fix debugger_else)
           (enter st))
  <> TERMINATED_BY_LIMIT.
Proof.
  induction n as [|n IH]; intros Hle; [discriminate|].
  change (Nat.iter (S n) ?f ?x) with (f (Nat.iter n f x)).
  set (l := Nat.iter n _ (enter st)) in *.
  pose proof (iter_step_progress runner_reply debugger_fix debugger_else n st)
    as [Hrun _]. fold l in Hrun.
  destruct (phase l) eqn:Hp.
  - rewrite step_running by (try assumption; rewrite (Hrun eq_refl); lia).
    cbv zeta. simpl. now destruct (snd _).
  - rewrite step_stopped by congruence. congruence.
  - exfalso. apply IH; [lia|reflexivity].
Qed.

(** X15 (coordinator.py, lines 130-148; coordinator.py, lines 166-174;
    coordinator.py, lines 177-188). The ceiling is reached on a failure
    only: a loop that ends in TERMINATED_BY_LIMIT leaves a status other
    than PASS, namely that of the third run, together with test code
    that the Debugger wrote after that run and that was never run; the
    final reporter then answers with the message, the python block of
    that code and the json block of those results. *)
Theorem refinement_loop_limit_report
    (render : Value -> string) (message : gmap string Value -> string) st :
  let l := refinement_loop runner_reply debugger_fix debugger_else st in
  phase l = TERMINATED_BY_LIMIT ->
  status (shared l) <> Some "PASS" /\
  exists s code,
    shared l
    = <["generated_test_code" := VStr code]>
        (test_runner_agent runner_reply 2 s) /\
    result_summarizer_agent render message (shared l)
    = Some (message (shared l) +:+ LF
            +:+ fenced "python" (rewrite_imports code) +:+ LF
            +:+ fenced "json" (shown render (runner_reply 2 s))).
Proof.
  cbv zeta. unfold refinement_loop.
  change (Nat.iter (S max_iterations) ?f ?x)
    with (f (f (Nat.iter 2 f x))).
  set (l2 := Nat.iter 2 _ (enter st)).
  set (step := Coordinator.step runner_reply debugger_fix debugger_else).
  pose proof (iter_step_progress runner_reply debugger_fix debugger_else 2 st)
    as [Hrun2 _]. fold l2 in Hrun2.
  pose proof (no_limit_before st 3 (le_n _)) as Hno3.
  change (Nat.iter 3 ?f ?x) with (f (Nat.iter 2 f x)) in Hno3.
  fold l2 step in Hno3.
  pose proof (iter_step_progress runner_reply debugger_fix debugger_else 3 st)
    as [Hrun3 _].
  change (Nat.iter 3 ?f ?x) with (f (Nat.iter 2 f x)) in Hrun3.
  fold l2 step in Hrun3.
  intros Hlimit.
  destruct (phase (step l2)) eqn:Hp3;
    [|unfold step at 1 in Hlimit; rewrite step_stopped in Hlimit;
      fold step in Hlimit; congruence..].
  destruct (phase l2) eqn:Hp2;
    [|unfold step in Hp3; rewrite step_stopped in Hp3; congruence..].
  assert (Hstep : step (step l2) =
            {| phase := TERMINATED_BY_LIMIT;
               times_looped := times_looped (step l2);
               shared := shared (step l2);
               ran := ran (step l2) |}).
  { unfold step at 1. unfold Coordinator.step. fold step.
    now rewrite Hp3, (Hrun3 eq_refl). }
  rewrite Hstep. simpl shared.
  unfold step in Hp3 |- *.
  rewrite step_running in Hp3 |- * by (try assumption; rewrite Hrun2; auto).
  cbv zeta in Hp3 |- *. simpl in Hp3. simpl shared.
  rewrite (Hrun2 eq_refl) in Hp3 |- *.
  destruct (iteration_body runner_reply debugger_fix debugger_else 2
              (shared l2)) as [st' signal] eqn:Hbody.
  simpl in Hp3 |- *. destruct signal; [|discriminate].
  apply body_continue in Hbody as (Hnot & code & ->).
  split.
  - intros Hpass%is_pass_iff. rewrite is_pass_after_debugger in Hpass.
    congruence.
  - exists (shared l2), code. split; [reflexivity|].
    unfold result_summarizer_agent.
    rewrite lookup_insert_eq, lookup_insert_ne by discriminate.
    unfold test_runner_agent at 1. rewrite lookup_insert_eq.
    now rewrite is_pass_after_debugger, Hnot.
Qed.

End RefinementLoopRuns.

Lemma refinement_loop_frame_witness :
  shared (refinement_loop (reports "FAIL") same_fix silent
            (<["source_code" := VStr "x = 1"]> (final_state "NOT_RUN" foo_test)))
    !! "source_code"
  = Some (VStr "x = 1").
Proof.
  rewrite refinement_loop_frame by discriminate. reflexivity.
Defined.

Lemma refinement_loop_exits_on_pass_witness :
  let l :=
    refinement_loop
      (fun i st => if (i <? 1)%nat then reports "FAIL" i st
                   else reports "PASS" i st)
      same_fix silent (final_state "NOT_RUN" foo_test) in
  phase l = TERMINATED_EARLY /\ times_looped l = 2.
Proof.
  destruct (refinement_loop_exits_on_pass
              (fun i st => if (i <? 1)%nat then reports "FAIL" i st
                           else reports "PASS" i st)
              same_fix silent plain apology
              (final_state "NOT_RUN" foo_test) 1)
    as (Hphase & Hcount & _).
  - unfold max_iterations. lia.
  - intros i s Hi. destruct i; [reflexivity|lia].
  - intros s. reflexivity.
  - eexists. reflexivity.
  - cbv zeta. now rewrite Hphase, Hcount.
Defined.

Lemma refinement_loop_limit_report_witness :
  status
    (shared (refinement_loop (reports "FAIL") same_fix silent
               (final_state "NOT_RUN" foo_test)))
  <> Some "PASS".
Proof.
  apply (refinement_loop_limit_report (reports "FAIL") same_fix silent
           plain apology (final_state "NOT_RUN" foo_test)).
  vm_compute. reflexivity.
Defined.

(** ** Lines *)

Lemma app_cons c (s t : string) : String c s +:+ t = String c (s +:+ t).
Proof. reflexivity. Qed.

Lemma join_cons sep x y l :
  join sep (x :: y :: l) = x +:+ sep +:+ join sep (y :: l).
Proof. reflexivity. Qed.

(** The separator of lines at the head of a text. *)
Lemma startswith_LF c s : startswith LF (String c s) = Ascii.eqb "010" c.
Proof.
  unfold startswith, LF. cbn [drop_prefix].
  now destruct (Ascii.eqb "010" c).
Qed.

(** Joining the lines of a text gives the text back. *)
Lemma join_split_scan s :
  forall cur,
    join LF
      (split_scan
         (fun t => if startswith LF t then Some (String.length LF) else None)
         0 cur s)
    = String.rev cur +:+ s.
Proof.
  induction s as [|c s IH]; intros cur.
  - simpl. now rewrite append_nil_r.
  - cbn [split_scan]. rewrite startswith_LF.
    destruct (Ascii.eqb_spec "010" c) as [<-|Hc].
    + cbn [String.length LF].
      destruct (split_scan _ 0 "" s) as [|y l] eqn:E;
        [now apply split_scan_not_nil in E|].
      rewrite join_cons, <- E, IH. reflexivity.
    + rewrite IH, rev_cons, append_assoc. reflexivity.
Qed.

Lemma join_split code : join LF (PyStr.split LF code) = code.
Proof. unfold PyStr.split. apply join_split_scan. Qed.

Lemma rewrite_line_fixed line :
  startswith source_to_test_import line = false -> rewrite_line line = line.
Proof.
  unfold rewrite_line, startswith.
  now destruct (drop_prefix source_to_test_import line).
Qed.

Lemma map_fixed {A} (f : A -> A) l :
  (forall x, In x l -> f x = x) -> map f l = l.
Proof.
  induction l as [|x l IH]; intros H; [reflexivity|]. simpl.
  rewrite H by now left. rewrite IH; [reflexivity|].
  intros y Hy. apply H. now right.
Qed.



Lemma rev_append (a b : string) :
  String.rev (a +:+ b) = String.rev b +:+ String.rev a.
Proof.
  induction a as [|c a IH]; [now rewrite append_nil_r|].
  now rewrite app_cons, !rev_cons, IH, append_assoc.
Qed.

Lemma rev_involutive s : String.rev (String.rev s) = s.
Proof.
  induction s as [|c s IH]; [reflexivity|].
  now rewrite rev_cons, rev_append, IH.
Qed.

Lemma contains_LF_cons c s :
  contains LF (String c s) = Ascii.eqb "010" c || contains LF s.
Proof. now rewrite contains_cons, startswith_LF. Qed.

Lemma contains_LF_app a b :
  contains LF (a +:+ b) = contains LF a || contains LF b.
Proof.
  induction a as [|c a IH]; [reflexivity|].
  now rewrite app_cons, !contains_LF_cons, IH, orb_assoc.
Qed.

(** A stretch without line break is read as one piece. *)
Lemma split_scan_line line :
  forall cur rest,
    contains LF line = false ->
    split_scan
      (fun t => if startswith LF t then Some (String.length LF) else None)
      0 cur (line +:+ rest)
    = split_scan
        (fun t => if startswith LF t then Some (String.length LF) else None)
        0 (String.rev line +:+ cur) rest.
Proof.
  induction line as [|c line IH]; intros cur rest Hfree; [reflexivity|].
  rewrite contains_LF_cons in Hfree.
  apply orb_false_iff in Hfree as [Hc Hline].
  rewrite app_cons. cbn [split_scan]. rewrite startswith_LF, Hc.
  now rewrite IH, rev_cons, append_assoc.
Qed.

(** Splitting what was joined gives the lines back, when no line holds a
    line break. *)
Lemma split_join lines :
  lines <> [] ->
  Forall (fun line => contains LF line = false) lines ->
  PyStr.split LF (join LF lines) = lines.
Proof.
  unfold PyStr.split.
  induction lines as [|x lines IH]; intros Hne Hfree; [congruence|].
  inversion Hfree as [|? ? Hx Hrest]; subst.
  destruct lines as [|y lines].
  - simpl join. rewrite <- (append_nil_r x) at 1.
    rewrite split_scan_line by assumption. simpl.
    now rewrite append_nil_r, rev_involutive.
  - rewrite join_cons, split_scan_line by assumption.
    unfold LF at 3. rewrite app_cons. cbn [split_scan].
    rewrite append_nil_r, rev_involutive.
    change (String "010" ("" +:+ join LF (y :: lines)))
      with (LF +:+ join LF (y :: lines)).
    rewrite startswith_app_r by reflexivity. cbn [String.length LF].
    f_equal. apply IH; [discriminate|assumption].
Qed.

Lemma split_scan_LF_free s :
  forall cur,
    contains LF (String.rev cur) = false ->
    Forall (fun line => contains LF line = false)
      (split_scan
         (fun t => if startswith LF t then Some (String.length LF) else None)
         0 cur s).
Proof.
  induction s as [|c s IH]; intros cur Hcur.
  - now constructor.
  - cbn [split_scan]. rewrite startswith_LF.
    destruct (Ascii.eqb "010" c) eqn:Hc.
    + cbn [String.length LF]. constructor; [assumption|]. now apply IH.
    + apply IH. rewrite rev_cons, contains_LF_app, Hcur, contains_LF_cons, Hc.
      reflexivity.
Qed.

Lemma drop_prefix_some p :
  forall s r, drop_prefix p s = Some r -> s = p +:+ r.
Proof.
  induction p as [|a p IH]; intros s r; simpl.
  - now intros [= ->].
  - destruct s as [|b s]; [discriminate|].
    destruct (Ascii.eqb_spec a b) as [->|]; [|discriminate].
    intros H%IH. now rewrite H.
Qed.

Lemma rewrite_line_LF_free line :
  contains LF line = false -> contains LF (rewrite_line line) = false.
Proof.
  unfold rewrite_line.
  destruct (drop_prefix source_to_test_import line) as [names|] eqn:E;
    [|trivial].
  apply drop_prefix_some in E as ->.
  rewrite !contains_LF_app. now intros [_ ->]%orb_false_iff.
Qed.

Lemma rewrite_line_twice line :
  rewrite_line (rewrite_line line) = rewrite_line line.
Proof. apply rewrite_line_fixed, rewrite_line_not_source_to_test. Qed.

(** The rewritten lines of a code are lines: there is one at least, and
    none holds a line break. *)
Lemma rewritten_lines code :
  map rewrite_line (PyStr.split LF code) <> []
  /\ Forall (fun line => contains LF line = false)
       (map rewrite_line (PyStr.split LF code)).
Proof.
  split.
  - unfold PyStr.split.
    destruct (split_scan _ 0 "" code) eqn:E;
      [now apply split_scan_not_nil in E|discriminate].
  - apply List.Forall_forall. intros line (l0 & <- & Hl0)%in_map_iff.
    apply rewrite_line_LF_free. revert l0 Hl0. apply List.Forall_forall.
    unfold PyStr.split. now apply split_scan_LF_free.
Qed.






(** ** main.py: the code block of the final answer *)

Lemma eqc_refl ic a : eqc ic a a = true.
Proof. unfold eqc. destruct ic; apply Ascii.eqb_refl. Qed.

Lemma eat_self ic p t : eat ic p (p +:+ t) = Some t.
Proof.
  induction p as [|a p IH]; [reflexivity|].
  rewrite app_cons. simpl. now rewrite eqc_refl.
Qed.

Lemma eat_false_drop_prefix p : forall s, eat false p s = drop_prefix p s.
Proof.
  induction p as [|a p IH]; intros s; [reflexivity|].
  destruct s as [|b s]; [reflexivity|]. simpl. unfold eqc.
  destruct (Ascii.eqb a b); [apply IH|reflexivity].
Qed.

Lemma length_append (a b : string) :
  String.length (a +:+ b) = String.length a + String.length b.
Proof.
  induction a as [|c a IH]; [reflexivity|].
  rewrite app_cons. simpl. now rewrite IH.
Qed.

Lemma substring_prefix (b t : string) :
  String.substring 0 (String.length (b +:+ t) - String.length t) (b +:+ t) = b.
Proof.
  rewrite length_append, Nat.add_sub.
  induction b as [|c b IH]; [now destruct t|].
  rewrite app_cons. simpl. now rewrite IH.
Qed.

Lemma contains_char_cons c d s :
  contains (String c "") (String d s)
  = Ascii.eqb c d || contains (String c "") s.
Proof.
  rewrite contains_cons. unfold startswith. cbn [drop_prefix].
  now destruct (Ascii.eqb c d).
Qed.

Lemma contains_char_app c a b :
  contains (String c "") (a +:+ b)
  = contains (String c "") a || contains (String c "") b.
Proof.
  induction a as [|d a IH]; [reflexivity|].
  now rewrite app_cons, !contains_char_cons, IH, orb_assoc.
Qed.

Lemma contains_any_suffix p s : contains p s = any_suffix (startswith p) s.
Proof.
  induction s as [|c s IH]; [reflexivity|].
  now rewrite contains_cons, any_suffix_cons, IH.
Qed.

Lemma contains_false_suffix p pre s :
  contains p (pre +:+ s) = false -> startswith p s = false.
Proof.
  intros H. destruct (startswith p s) eqn:E; [|reflexivity].
  now rewrite (contains_app_r _ pre _ (contains_here _ _ E)) in H.
Qed.

(** A lazy repetition of any character stops at the first place where
    what follows it goes on. *)
Lemma rep_lazy_first {R} ok (k : string -> option R) x tl :
  (forall a, ok a = true) ->
  k tl = Some x ->
  forall body,
    (forall pre post,
       body = pre +:+ post -> post <> "" -> k (post +:+ tl) = None) ->
    rep ok false 0 (body +:+ tl) k = Some x.
Proof.
  intros Hok Hk. induction body as [|a body IH]; intros Hnone.
  - change ("" +:+ tl) with tl. destruct tl; simpl; now rewrite Hk.
  - rewrite app_cons. simpl.
    rewrite <- app_cons, (Hnone "" (String a body)) by easy.
    rewrite Hok. apply IH. intros pre post -> Hpost.
    apply (Hnone (String a pre)); [reflexivity|assumption].
Qed.

(** The closing fence cannot begin inside a body that holds no line
    beginning with a fence. *)
Lemma closing_fence_not_inside post tail :
  post <> "" ->
  startswith (LF +:+ fence) post = false ->
  eat false (LF +:+ fence) (post +:+ (LF +:+ fence) +:+ tail) = None.
Proof.
  intros Hpost. rewrite eat_false_drop_prefix. unfold startswith.
  change (LF +:+ fence) with (String "010" "```").
  destruct post as [|a [|b [|c [|d post]]]]; [congruence|..];
    rewrite !app_cons;
    change ("" +:+ String "010" "```" +:+ tail)
      with (String "010" (String "`" (String "`" (String "`" tail))));
    cbn [drop_prefix];
    repeat match goal with
      | |- context [Ascii.eqb ?x ?y] =>
          lazymatch y with
          | Ascii _ _ _ _ _ _ _ _ => fail
          | _ => destruct (Ascii.eqb x y)
          end
      end;
    try reflexivity; try discriminate.
Qed.

Lemma rep_lazy_first_plus {R} ok (k : string -> option R) x tl body :
  (forall a, ok a = true) ->
  k tl = Some x ->
  body <> "" ->
  (forall pre post,
     body = pre +:+ post -> pre <> "" -> post <> "" ->
     k (post +:+ tl) = None) ->
  rep ok false 1 (body +:+ tl) k = Some x.
Proof.
  intros Hok Hk Hbody Hnone. destruct body as [|a body]; [congruence|].
  rewrite app_cons. simpl. rewrite Hok.
  apply rep_lazy_first; try assumption.
  intros pre post -> Hpost.
  apply (Hnone (String a pre)); [reflexivity|discriminate|assumption].
Qed.

(** At a python block whose body is not empty and has no line that
    begins with a fence, the pattern of main.py matches the whole block
    and captures the body. *)
Lemma match_at_python_block body tail :
  body <> "" ->
  contains (LF +:+ fence) body = false ->
  match_at dotall python_block (fenced "python" body +:+ tail)
  = Some (String.length (fenced "python" body), Some body).
Proof.
  intros Hbody Hfree. unfold match_at, python_block.
  replace (fenced "python" body +:+ tail)
    with ((fence +:+ "python" +:+ LF)
          +:+ (body +:+ (LF +:+ fence) +:+ tail))
    by (unfold fenced; now rewrite !append_assoc).
  set (tl := (LF +:+ fence) +:+ tail).
  rewrite run_cat.
  rewrite (run_lit dotall _ _ (body +:+ tl)) by apply eat_self.
  rewrite run_cat, run_grp. cbn [run].
  apply rep_lazy_first_plus; try assumption.
  - reflexivity.
  - unfold tl. cbn [IGNORECASE dotall]. rewrite eat_self.
    rewrite substring_prefix. f_equal. f_equal.
    rewrite !length_append. unfold fenced. rewrite !length_append. lia.
  - intros pre post -> Hpre Hpost. cbn [IGNORECASE dotall].
    unfold tl. rewrite closing_fence_not_inside; [reflexivity|assumption|].
    eapply contains_false_suffix. exact Hfree.
Qed.

(** Before the first backquote there is no python block. *)
Lemma search_from_skip pre text :
  contains "`" pre = false ->
  forall pos,
    search_from dotall python_block pos (pre +:+ text)
    = search_from dotall python_block (pos + String.length pre) text.
Proof.
  induction pre as [|c pre IH]; intros Hfree pos.
  - simpl. now rewrite Nat.add_0_r.
  - rewrite contains_char_cons in Hfree.
    apply orb_false_iff in Hfree as [Hc Hpre].
    rewrite app_cons. cbn [search_from].
    assert (Hnone : match_at dotall python_block (String c (pre +:+ text))
                    = None).
    { unfold match_at, python_block. rewrite run_cat. cbn [run].
      unfold fence. rewrite !app_cons. cbn [eat IGNORECASE dotall].
      unfold eqc. now rewrite Hc. }
    rewrite Hnone, IH by assumption. simpl. f_equal. lia.
Qed.

Lemma search_from_here fl r pos s n g :
  match_at fl r s = Some (n, g) ->
  search_from fl r pos s = Some {| start := pos; span := n; group1 := g |}.
Proof. intros H. destruct s; simpl; now rewrite H. Qed.

(** What main.py saves from an answer that holds a python block after a
    text without backquote: the body of the block, stripped. *)
Lemma final_code_of_block pre body tail :
  contains "`" pre = false ->
  body <> "" ->
  contains (LF +:+ fence) body = false ->
  final_code (pre +:+ fenced "python" body +:+ tail)
  = Return (Some (strip body)).
Proof.
  intros Hpre Hbody Hfree. unfold final_code, search.
  rewrite search_from_skip by assumption.
  now rewrite (search_from_here _ _ _ _ _ _
                (match_at_python_block body tail Hbody Hfree)).
Qed.

(** X19 (main.py, lines 83-93). Without the opening of a python block
    nothing is saved. *)
Theorem final_code_without_block final_output :
  contains (fence +:+ "python" +:+ LF) final_output = false ->
  final_code final_output = Return None.
Proof.
  intros H. unfold final_code. rewrite search_none; [reflexivity|].
  rewrite contains_any_suffix in H.
  destruct (any_suffix (matches_at dotall python_block) final_output) eqn:E;
    [|reflexivity].
  rewrite <- H. symmetry. revert E. apply any_suffix_mono.
  intros t Ht%matches_at_inv. unfold match_at, python_block in Ht.
  rewrite run_cat in Ht. apply run_lit_some in Ht. cbn [IGNORECASE dotall] in Ht.
  rewrite eat_false_drop_prefix in Ht. unfold startswith.
  now destruct (drop_prefix (fence +:+ "python" +:+ LF) t).
Qed.

Lemma final_code_without_block_witness :
  final_code "The tests could not be fixed automatically." = Return None.
Proof. apply final_code_without_block. vm_compute. reflexivity. Defined.

(** ** main.py: from the last event to the saved file *)

Lemma nonempty_append_cons m c x : nonempty (m +:+ String c x) = true.
Proof. now destruct m. Qed.

Lemma rstrip_app_keep a b :
  rstrip b <> "" -> rstrip (a +:+ b) = a +:+ rstrip b.
Proof.
  intros Hb. induction a as [|c a IH]; [reflexivity|].
  rewrite !app_cons. simpl. rewrite IH.
  assert (E : nonempty (a +:+ rstrip b) = true).
  { destruct a; [|reflexivity]. change ("" +:+ rstrip b) with (rstrip b).
    now destruct (rstrip b). }
  now rewrite E, andb_false_r.
Qed.

Lemma rstrip_LF_tail y : rstrip (y +:+ LF) = rstrip y.
Proof.
  induction y as [|c y IH]; [reflexivity|].
  rewrite app_cons. simpl. now rewrite IH.
Qed.

Lemma rstrip_backquote_end z : rstrip (z +:+ "`") = z +:+ "`".
Proof. now rewrite rstrip_app_keep. Qed.

(** White space is stripped from the left up to the first character that
    is none; what is left of a text without backquote has none either. *)
Lemma lstrip_app_block m c x :
  isspace c = false ->
  contains "`" m = false ->
  exists m',
    lstrip (m +:+ String c x) = m' +:+ String c x /\
    contains "`" m' = false.
Proof.
  intros Hc. induction m as [|d m IH]; intros Hm.
  - exists "". simpl. now rewrite Hc.
  - rewrite contains_char_cons in Hm.
    apply orb_false_iff in Hm as [Hd Hm].
    rewrite app_cons. simpl. destruct (isspace d).
    + now apply IH.
    + exists (String d m). split; [reflexivity|].
      now rewrite contains_char_cons, Hd, Hm.
Qed.

(** The text that main.py searches when the last event carries an answer
    made of a text without backquote and then blocks: the answer with the
    white space about it removed. *)
Lemma strip_answer m w c x y :
  w = String c x -> isspace c = false ->
  w = y +:+ "`" ->
  contains "`" m = false ->
  exists m',
    strip ((m +:+ w) +:+ LF) = m' +:+ w /\ contains "`" m' = false.
Proof.
  intros Hhead Hc Hend Hm. unfold strip.
  rewrite append_assoc, Hhead, app_cons.
  destruct (lstrip_app_block m c (x +:+ LF) Hc Hm) as (m' & -> & Hm').
  exists m'. split; [|exact Hm'].
  rewrite <- app_cons, <- Hhead, <- append_assoc, rstrip_LF_tail.
  rewrite Hend, <- append_assoc. apply rstrip_backquote_end.
Qed.

Lemma final_output_last earlier a report :
  nonempty report = true ->
  final_output
    (earlier ++
     [ {| author := a;
          content := Some {| parts := Some [ {| text := Some report |} ] |};
          is_final_response := true |} ])%list
  = strip (report +:+ LF).
Proof.
  intros Hne. unfold final_output. rewrite fold_left_app. simpl.
  unfold content_text. simpl. now rewrite Hne.
Qed.

(** X20 (main.py, lines 58-93; coordinator.py, lines 177-188). From the
    report to the file. When the last event of the run is the answer of
    the final reporter, its message has no backquote, and the rewritten
    test code is not empty and has no line that begins with a fence,
    main.py saves the rewritten test code, stripped: for a passing run
    and for a failing one alike. *)
Theorem main_saves_reported_code
    (run_async : Content -> list Event)
    (render : Value -> string) (message : gmap string Value -> string)
    (st : gmap string Value) (source_code_to_test code report a : string)
    (earlier : list Event) :
  run_async (user_message source_code_to_test)
  = (earlier ++
     [ {| author := a;
          content := Some {| parts := Some [ {| text := Some report |} ] |};
          is_final_response := true |} ])%list ->
  st !! "generated_test_code" = Some (VStr code) ->
  result_summarizer_agent render message st = Some report ->
  contains "`" (message st) = false ->
  rewrite_imports code <> "" ->
  contains (LF +:+ fence) (rewrite_imports code) = false ->
  main run_async (Some source_code_to_test)
  = Return (Some (strip (rewrite_imports code))).
Proof.
  intros Hevents Hcode Hreport Hmessage Hbody Hfree.
  unfold main. rewrite Hevents.
  unfold result_summarizer_agent in Hreport. rewrite Hcode in Hreport.
  destruct (st !! "test_results") as [results|]; [|discriminate].
  cbv zeta in Hreport. change (shown render (VStr code)) with code in Hreport.
  injection Hreport as <-.
  set (body := rewrite_imports code) in *.
  destruct (is_pass st).
  - rewrite final_output_last by reflexivity.
    destruct (strip_answer "" (fenced "python" body) "`" _
                (fence +:+ "python" +:+ LF +:+ body +:+ LF +:+ "``")
                eq_refl eq_refl)
      as (m' & Hstrip & Hm');
      [unfold fenced, fence; now rewrite !append_assoc|reflexivity|].
    change ("" +:+ fenced "python" body) with (fenced "python" body)
      in Hstrip.
    rewrite Hstrip, <- (append_nil_r (fenced "python" body)).
    now apply final_code_of_block.
  - set (json := shown render results).
    rewrite final_output_last
      by (unfold fenced, fence; rewrite !append_assoc;
          apply nonempty_append_cons).
    assert (Hm : contains "`" (message st +:+ LF) = false)
      by now rewrite contains_char_app, Hmessage.
    destruct (strip_answer (message st +:+ LF)
                (fenced "python" body +:+ LF +:+ fenced "json" json) "`" _
                (fenced "python" body +:+ LF +:+ fence +:+ "json" +:+ LF
                 +:+ json +:+ LF +:+ "``")
                eq_refl eq_refl)
      as (m' & Hstrip & Hm');
      [unfold fenced, fence; now rewrite !append_assoc|exact Hm|].
    rewrite <- append_assoc, Hstrip.
    now apply final_code_of_block.
Qed.

Lemma main_saves_reported_code_witness :
  main
    (fun _ =>
       [ last_event
           (apology (final_state "FAIL" foo_test) +:+ LF
            +:+ fenced "python" (rewrite_imports foo_test) +:+ LF
            +:+ fenced "json" (plain (VDict [("status", VStr "FAIL")]))) ])
    (Some "class Foo: pass")
  = Return (Some (strip (rewrite_imports foo_test))).
Proof.
  eapply (main_saves_reported_code _ plain apology
            (final_state "FAIL" foo_test) "class Foo: pass" foo_test _
            "ResultSummarizer" []).
  - reflexivity.
  - vm_compute. reflexivity.
  - vm_compute. reflexivity.
  - vm_compute. reflexivity.
  - vm_compute. discriminate.
  - vm_compute. reflexivity.
Defined.

(** Events that are no final response leave the final output as it
    was. *)
Lemma final_output_no_final events :
  forall acc,
    (forall event, In event events -> is_final_response event = false) ->
    fold_left
      (fun final_output event =>
         if is_final_response event then strip (content_text event)
         else final_output)
      events acc
    = acc.
Proof.
  induction events as [|event events IH]; intros acc H; [reflexivity|].
  simpl. rewrite (H event) by now left.
  apply IH. intros e He. apply H. now right.
Qed.

(** X21 (main.py, lines 19-93). When no event of the run is a final
    response, or the source file is missing, main.py saves nothing. *)
Theorem main_saves_nothing
    (run_async : Content -> list Event) (sample_code_py : option string) :
  (forall source_code_to_test event,
     sample_code_py = Some source_code_to_test ->
     In event (run_async (user_message source_code_to_test)) ->
     is_final_response event = false) ->
  main run_async sample_code_py = Return None.
Proof.
  intros H. unfold main. destruct sample_code_py as [src|]; [|reflexivity].
  unfold final_output. rewrite final_output_no_final; [reflexivity|].
  intros event Hin. now apply (H src).
Qed.

Lemma main_saves_nothing_witness :
  main (fun _ => [ {| author := "TestRunner";
                      content := None;
                      is_final_response := false |} ])
    (Some "class Foo: pass")
  = Return None.
Proof.
  apply main_saves_nothing.
  intros src event _ [<-|[]]. reflexivity.
Defined.

(** ** The callback and the instruction of the Runner *)

(** X10 (coordinator.py, lines 65-76). The callback after a tool call
    stores the response of [analyze_code_structure] under
    [static_analysis_report] and ends the turn with a content; for a
    tool of any other name it changes nothing and returns nothing; in no
    case does it touch another key. *)
Theorem save_analysis_to_state_contract
    (tool : BaseTool) (tool_response : Value) (st : gmap string Value)
    (key : string) :
  let r := save_analysis_to_state tool tool_response st in
  (tool_name tool = "analyze_code_structure" ->
   fst r !! "static_analysis_report" = Some tool_response /\
   snd r <> None) /\
  (tool_name tool <> "analyze_code_structure" -> r = (st, None)) /\
  (key <> "static_analysis_report" -> fst r !! key = st !! key).
Proof.
  cbv zeta. unfold save_analysis_to_state.
  destruct (String.eqb_spec (tool_name tool) "analyze_code_structure")
    as [Heq|Hne]; simpl.
  - repeat split; try congruence.
    + apply lookup_insert_eq.
    + intros Hk. now rewrite lookup_insert_ne.
  - repeat split; congruence.
Qed.



Lemma save_analysis_to_state_contract_witness :
  fst (save_analysis_to_state {| tool_name := "analyze_code_structure" |}
         (VDict [("functions", VList [])]) (final_state "NOT_RUN" foo_test))
    !! "static_analysis_report"
  = Some (VDict [("functions", VList [])]).
Proof.
  apply (save_analysis_to_state_contract
           {| tool_name := "analyze_code_structure" |}
           (VDict [("functions", VList [])]) (final_state "NOT_RUN" foo_test)
           "source_code").
  reflexivity.
Defined.

(** ** The description of a block without a bullet *)

(** A greedy run of white space before a pattern that always matches
    takes all the white space there is. *)
Lemma rep_greedy_all {R} ok (k : string -> option R) s :
  (forall a, ok a = isspace a) ->
  (forall s', k s' <> None) ->
  rep ok true 0 s k = k (lstrip s).
Proof.
  intros Hok Hk. induction s as [|a s IH]; simpl.
  - now destruct (k "").
  - rewrite Hok. destruct (isspace a).
    + rewrite IH. specialize (Hk (lstrip s)). now destruct (k (lstrip s)).
    + reflexivity.
Qed.

(** A repetition fails when what follows it fails wherever it is
    tried. *)
Lemma rep_none {R} ok greedy (k : string -> option R) s :
  forall least,
    (forall pre post, s = pre +:+ post -> k post = None) ->
    rep ok greedy least s k = None.
Proof.
  induction s as [|a s IH]; intros least Hk; simpl.
  - rewrite (Hk "" "") by reflexivity. now destruct greedy, least.
  - rewrite (Hk "" (String a s)) by reflexivity.
    rewrite IH by (intros pre post ->; now apply (Hk (String a pre))).
    now destruct greedy, least, (ok a).
Qed.

Lemma contains_char_suffix c pre post :
  contains (String c "") (pre +:+ post) = false ->
  contains (String c "") post = false.
Proof. rewrite contains_char_app. now intros [_ H]%orb_false_iff. Qed.

Lemma eat_char ic a c t :
  eat ic (String a "") (String c t) = if eqc ic a c then Some t else None.
Proof. cbn [eat]. now destruct (eqc ic a c). Qed.

Lemma eat_nil ic a p : eat ic (String a p) "" = None.
Proof. reflexivity. Qed.

(** No letter is a hyphen, in either case. *)
Lemma eqc_hyphen d : eqc true "-" d = Ascii.eqb "-" d.
Proof. destruct d as [[] [] [] [] [] [] [] []]; reflexivity. Qed.

(** The end of a description at a bullet needs a hyphen. *)
Lemma bullet_needs_hyphen {R} t g (k : string -> option string -> option R) :
  contains "-" t = false ->
  run dotall_ignorecase
    (Lit LF +> Rep Space 0 true +> Lit "-" +> Rep Space 0 true
     +> (Lit "Inputs" ||| Lit "Expected Outcome" ||| Lit "EXPECTED")
     +> Lit ":")%re
    t g k
  = None.
Proof.
  intros Hfree. rewrite run_cat. cbn [run IGNORECASE dotall_ignorecase].
  destruct (eat true LF t) as [t1|] eqn:E; [|reflexivity].
  assert (Ht1 : contains "-" t1 = false).
  { unfold LF in E. destruct t as [|c t]; [now rewrite eat_nil in E|].
    rewrite eat_char in E. destruct (eqc true "010" c); [|discriminate E].
    injection E as <-. now apply (contains_char_suffix "-" (String c "")). }
  apply rep_none. intros pre post ->.
  apply contains_char_suffix in Ht1.
  destruct post as [|d post]; [reflexivity|].
  rewrite contains_char_cons in Ht1. apply orb_false_iff in Ht1 as [Hd _].
  now rewrite eat_char, eqc_hyphen, Hd.
Qed.

Lemma at_end_append post tl :
  post <> "" -> (tl = "" /\ at_end post = false) \/ tl = LF ->
  at_end (post +:+ tl) = false.
Proof.
  intros Hpost [[-> H]| ->].
  - now rewrite append_nil_r.
  - destruct post as [|a [|b post]]; [congruence|reflexivity..].
Qed.

Lemma app_nil_l (s : string) : "" +:+ s = s.
Proof. reflexivity. Qed.

(** A text either ends with a line break or does not. *)
Lemma ends_with_LF u :
  (exists v, u = v +:+ LF)
  \/ (forall pre post, u = pre +:+ post -> post <> "" -> at_end post = false).
Proof.
  induction u as [|a u IH].
  - right. intros pre post H Hpost. destruct pre; [|discriminate H].
    rewrite app_nil_l in H. congruence.
  - destruct IH as [[v ->]|IH].
    + left. now exists (String a v).
    + destruct u as [|b u].
      * destruct (Ascii.eqb_spec a "010") as [->|Hne].
        -- left. now exists "".
        -- right. intros pre post H Hpost.
           destruct pre as [|p pre].
           ++ rewrite app_nil_l in H. subst post. simpl.
              now apply Ascii.eqb_neq.
           ++ rewrite app_cons in H. injection H as _ H.
              destruct pre; [|discriminate H].
              rewrite app_nil_l in H. congruence.
      * right. intros pre post H Hpost.
        destruct pre as [|p pre].
        -- rewrite app_nil_l in H. now subst post.
        -- rewrite app_cons in H. injection H as _ H. now apply (IH pre).
Qed.

Lemma lstrip_lstrip s : lstrip (lstrip s) = lstrip s.
Proof.
  induction s as [|c s IH]; [reflexivity|]. simpl.
  destruct (isspace c) eqn:E; [exact IH|]. simpl. now rewrite E.
Qed.

Lemma strip_lstrip s : strip (lstrip s) = strip s.
Proof. unfold strip. now rewrite lstrip_lstrip. Qed.

Lemma strip_LF_tail v : strip (v +:+ LF) = strip v.
Proof.
  unfold strip. induction v as [|c v IH]; [reflexivity|].
  rewrite app_cons. simpl. destruct (isspace c); [exact IH|].
  rewrite <- app_cons. apply rstrip_LF_tail.
Qed.

Lemma eat_cons ic a p c t :
  eat ic (String a p) (String c t) = if eqc ic a c then eat ic p t else None.
Proof. reflexivity. Qed.

(** The two labels begin with different letters. *)
Lemma labels_apart block r :
  eat true "SCENARIO" block = Some r -> eat true "Description" block = None.
Proof.
  destruct block as [|c block]; [discriminate|]. rewrite !eat_cons.
  assert (H : eqc true "S" c = false \/ eqc true "D" c = false)
    by (destruct c as [[] [] [] [] [] [] [] []]; auto).
  destruct H as [-> | ->]; [discriminate|reflexivity].
Qed.

Lemma substring_all (s : string) : String.substring 0 (String.length s) s = s.
Proof. induction s as [|c s IH]; [reflexivity|]. simpl. now rewrite IH. Qed.

Lemma rep_lazy_first_at {R} ok (k : string -> option R) x tl body s :
  s = body +:+ tl ->
  (forall a, ok a = true) ->
  k tl = Some x ->
  (forall pre post,
     body = pre +:+ post -> post <> "" -> k (post +:+ tl) = None) ->
  rep ok false 0 s k = Some x.
Proof. intros -> Hok Hk Hnone. now apply rep_lazy_first. Qed.

Section ToTheEnd.
Context {R : Type}.
Variable kf : string -> option string -> option R.
Hypothesis kf_total : forall s g, kf s g <> None.

(** After the colon of the label, in a block without hyphen, the first
    primary pattern runs to the end of the block: the group holds the
    rest of the block, white space at its ends apart. *)
Lemma desc_v2_to_end rest g0 :
  contains "-" rest = false ->
  exists g e,
    run dotall_ignorecase
      (Rep Space 0 true +> Grp (Rep Dot 0 false)
       +> (Lit LF +> Rep Space 0 true +> Lit "-" +> Rep Space 0 true
           +> (Lit "Inputs" ||| Lit "Expected Outcome" ||| Lit "EXPECTED")
           +> Lit ":"
           ||| Eos))%re
      rest g0 kf
    = kf e (Some g)
    /\ strip g = strip rest.
Proof.
  intros Hfree.
  assert (Htail : forall s' g',
            contains "-" s' = false ->
            run dotall_ignorecase
              (Lit LF +> Rep Space 0 true +> Lit "-" +> Rep Space 0 true
               +> (Lit "Inputs" ||| Lit "Expected Outcome" ||| Lit "EXPECTED")
               +> Lit ":"
               ||| Eos)%re
              s' g' kf
            = if at_end s' then kf s' g' else None).
  { intros s' g' Hs'. rewrite run_alt, bullet_needs_hyphen by assumption.
    apply run_eos. }
  set (B := (Lit LF +> Rep Space 0 true +> Lit "-" +> Rep Space 0 true
             +> (Lit "Inputs" ||| Lit "Expected Outcome" ||| Lit "EXPECTED")
             +> Lit ":")%re) in *.
  clearbody B.
  rewrite run_cat, run_rep.
  rewrite rep_greedy_all; [|reflexivity|].
  2: { intros s'. cbv beta. rewrite run_cat, run_grp.
       apply run_dot_to_end; [reflexivity|].
       rewrite Htail by reflexivity. apply kf_total. }
  assert (Hu : contains "-" (lstrip rest) = false).
  { destruct (lstrip_infix rest) as (pre & post & Hrest).
    rewrite Hrest in Hfree. apply contains_char_suffix in Hfree.
    rewrite contains_char_app in Hfree.
    now apply orb_false_iff in Hfree as [H _]. }
  rewrite <- (strip_lstrip rest). revert Hu.
  generalize (lstrip rest). clear rest Hfree. intros u Hu.
  rewrite run_cat, run_grp, run_rep. cbv beta.
  destruct (ends_with_LF u) as [[v Hv]|Hend].
  - exists v, LF. split; [|now rewrite Hv, strip_LF_tail].
    destruct (kf LF (Some v)) as [x|] eqn:Ekf; [|now apply kf_total in Ekf].
    apply (rep_lazy_first_at _ _ _ LF v); [exact Hv|reflexivity|..].
    + rewrite Htail by reflexivity.
      change (at_end LF) with true. cbv iota.
      now rewrite Hv, substring_prefix.
    + intros pre post -> Hpost.
      rewrite Htail.
      * now rewrite at_end_append by auto.
      * rewrite Hv, append_assoc in Hu.
        now apply contains_char_suffix in Hu.
  - exists u, "". split; [|reflexivity].
    destruct (kf "" (Some u)) as [x|] eqn:Ekf; [|now apply kf_total in Ekf].
    apply (rep_lazy_first_at _ _ _ "" u);
      [symmetry; apply append_nil_r|reflexivity|..].
    + rewrite Htail by reflexivity.
      change (at_end "") with true. cbv iota.
      now rewrite Nat.sub_0_r, substring_all.
    + intros pre post -> Hpost.
      rewrite append_nil_r, Htail.
      * now rewrite (Hend pre post).
      * now apply contains_char_suffix in Hu.
Qed.
End ToTheEnd.

(** At the head of a block that begins with one of the two labels and
    holds no hyphen after it, the first primary pattern matches, and its
    group is the rest of the block. *)
Lemma search_desc_v2_labelled block rest :
  eat true "SCENARIO:" block = Some rest
  \/ eat true "Description:" block = Some rest ->
  contains "-" rest = false ->
  exists md g,
    search dotall_ignorecase desc_v2 block = Some md
    /\ group1 md = Some g /\ strip g = strip rest.
Proof.
  intros Hlabel Hfree.
  destruct (desc_v2_to_end
              (fun s' g => Some (String.length block - String.length s', g))
              ltac:(discriminate) rest None Hfree)
    as (g & e & Hrun & Hg).
  exists {| start := 0; span := String.length block - String.length e;
            group1 := Some g |}, g.
  split; [|split; [reflexivity|exact Hg]].
  unfold search. apply search_from_here. unfold match_at, desc_v2.
  rewrite run_cat, run_alt.
  destruct Hlabel as [H|H].
  - change "SCENARIO:" with ("SCENARIO" +:+ ":") in H. rewrite eat_app in H.
    destruct (eat true "SCENARIO" block) as [r1|] eqn:E1; [|discriminate H].
    rewrite (run_lit_none dotall_ignorecase "Description")
      by exact (labels_apart _ _ E1).
    rewrite (run_lit dotall_ignorecase _ _ _ _ _ E1), run_cat.
    now rewrite (run_lit dotall_ignorecase _ _ _ _ _ H).
  - change "Description:" with ("Description" +:+ ":") in H.
    rewrite eat_app in H.
    destruct (eat true "Description" block) as [r1|] eqn:E1; [|discriminate H].
    rewrite (run_lit dotall_ignorecase _ _ _ _ _ E1), run_cat.
    now rewrite (run_lit dotall_ignorecase _ _ _ _ _ H), Hrun.
Qed.

(** X6 (test_design_tools.py, lines 46-51). In a block that begins with
    the label SCENARIO: or Description:, in any letter case, and holds
    no hyphen after the label, the description of an extracted scenario
    is the whole rest of the block, stripped: the first primary pattern
    ends its capture only at a bullet or at the end of the block, so the
    text of every later line, the expected outcome included, is part of
    the description. *)
Theorem extract_description_runs_to_end block rest d o :
  eat true "SCENARIO:" block = Some rest
  \/ eat true "Description:" block = Some rest ->
  contains "-" rest = false ->
  snd (extract block) = Return (Some d, Some o) ->
  d = strip rest.
Proof.
  intros Hlabel Hfree.
  destruct (search_desc_v2_labelled block rest Hlabel Hfree)
    as (md & g & Hmd & Hg & Hstrip).
  destruct (search dotall_ignorecase outcome_v2 block) as [mo|] eqn:Emo.
  - unfold extract. rewrite Hmd, Emo. cbn [snd].
    unfold captures, group1_strip. rewrite Hg.
    destruct (group1 mo); [|discriminate].
    intros [= <- _]. exact Hstrip.
  - rewrite legacy_patterns_imply_primary by (now right).
    discriminate.
Qed.

Lemma extract_description_runs_to_end_witness :
  "adds two positives" +:+ LF +:+ "EXPECTED: returns their sum"
  = strip (" adds two positives" +:+ LF +:+ "EXPECTED: returns their sum"
           +:+ LF).
Proof.
  apply (extract_description_runs_to_end
           ("SCENARIO: adds two positives" +:+ LF
            +:+ "EXPECTED: returns their sum" +:+ LF)
           (" adds two positives" +:+ LF +:+ "EXPECTED: returns their sum"
            +:+ LF)
           ("adds two positives" +:+ LF +:+ "EXPECTED: returns their sum")
           "returns their sum").
  - left. vm_compute. reflexivity.
  - vm_compute. reflexivity.
  - vm_compute. reflexivity.
Defined.

(** ** What the parser can return *)

(** X1 (test_design_tools.py, lines 13-76). Whatever the text,
    generate_test_scenarios never returns an empty list: it returns at
    least one scenario, or raises the ValueError of line 74, or raises
    the AttributeError of a strip on None at lines 50-51. *)
Theorem generate_test_scenarios_result text :
  match generate_test_scenarios text with
  | Return scenarios => scenarios <> []
  | Raise e =>
      e = ValueError "Could not parse any valid scenarios from the provided text."
      \/ e = AttributeError "'NoneType' object has no attribute 'strip'"
  end.
Proof.
  destruct (generate_test_scenarios_outcomes text)
    as [(scenario & rest & ->)|[-> | ->]]; [discriminate|now left|now right].
Qed.
